(** * IgnitoSolutions site: a shallow embedding of [app.py]

    The Flask application is modelled as a function from a request, the
    client's session and the database to a response, a session and a
    database.  Python values are a small inductive type with Python's
    truthiness; handlers run in an exception monad; an unhandled exception
    becomes a 500 response and rolls the request's changes back.

    Functions of the libraries the application calls and whose code is not
    part of the repository (werkzeug's password hashing, Python's conversion
    between [float] and [str], the text SQLite writes for a number) are
    variables of the section [Application]. *)

From Stdlib Require Import ZArith NArith String Ascii List Bool Lia.
From Stdlib Require Import Floats.SpecFloat.
From Stdlib Require Import DecimalN DecimalPos DecimalFacts.
From Stdlib Require Import Sorted Permutation.
From stdpp Require Import gmap strings list.

Set Warnings "-register-all".

Local Open Scope string_scope.
Local Open Scope list_scope.
Local Open Scope Z_scope.

(** ** Python values *)

(** The values a decoded JSON body or a form field can hold.  A [dict] is an
    association list in insertion order (its keys are distinct; lookup takes
    the first binding).  A [float] is a binary64 value.  A [str] is held as
    the bytes of its UTF-8 encoding; a [str] with a lone surrogate has no
    such encoding and is not modelled. *)
Inductive pyval : Type :=
| PNone
| PBool (b : bool)
| PInt (z : Z)
| PFloat (f : spec_float)
| PStr (s : string)
| PList (l : list pyval)
| PDict (d : list (string * pyval)).

(** Exceptions a handler can raise. [NotFound] is werkzeug's 404
    [HTTPException] raised by [get_or_404]; [ProgrammingError] is what
    [sqlite3] raises for a parameter of a type it does not bind
    ([InterfaceError] before Python 3.11). *)
Inductive exn : Type :=
| AttributeError
| TypeError
| ValueError
| OverflowError
| IntegrityError
| ProgrammingError
| NotFound.

Inductive result (A : Type) : Type :=
| Ok (a : A)
| Raise (e : exn).
Arguments Ok {A} a.
Arguments Raise {A} e.

Definition bind {A B : Type} (m : result A) (k : A -> result B) : result B :=
  match m with
  | Ok a => k a
  | Raise e => Raise e
  end.

Notation "'let*' x ':=' m 'in' k" := (bind m (fun x => k))
  (at level 10, x name, m at level 100, k at level 200).

(** [bool(v)] *)
Definition truthy (v : pyval) : bool :=
  match v with
  | PNone => false
  | PBool b => b
  | PInt z => negb (z =? 0)
  | PFloat f =>
      match f with
      | S754_zero _ => false
      | _ => true
      end
  | PStr s => negb (String.eqb s "")
  | PList l => match l with [] => false | _ => true end
  | PDict d => match d with [] => false | _ => true end
  end.

(** [a or b] *)
Definition py_or (a b : pyval) : pyval := if truthy a then a else b.

(** [all(l)] *)
Definition py_all (l : list pyval) : bool := forallb truthy l.

Fixpoint assoc {A : Type} (k : string) (l : list (string * A)) : option A :=
  match l with
  | [] => None
  | (k', v) :: l' => if String.eqb k k' then Some v else assoc k l'
  end.

(** [d.get(k, default)]: only a dict has the method. *)
Definition py_get (d : pyval) (k : string) (default : pyval) : result pyval :=
  match d with
  | PDict kvs =>
      match assoc k kvs with
      | Some v => Ok v
      | None => Ok default
      end
  | _ => Raise AttributeError
  end.

(** [float(n)] for an [int]: the nearest binary64 value, ties to even;
    [OverflowError] when the integer is beyond the binary64 range. *)
Definition float_of_int (z : Z) : result spec_float :=
  match binary_normalize 53 1024 z 0 false with
  | S754_infinity _ => Raise OverflowError
  | f => Ok f
  end.

(** ** Decimal numerals *)

Fixpoint chars_of_uint (u : Decimal.uint) : list ascii :=
  match u with
  | Decimal.Nil => []
  | Decimal.D0 u => "0"%char :: chars_of_uint u
  | Decimal.D1 u => "1"%char :: chars_of_uint u
  | Decimal.D2 u => "2"%char :: chars_of_uint u
  | Decimal.D3 u => "3"%char :: chars_of_uint u
  | Decimal.D4 u => "4"%char :: chars_of_uint u
  | Decimal.D5 u => "5"%char :: chars_of_uint u
  | Decimal.D6 u => "6"%char :: chars_of_uint u
  | Decimal.D7 u => "7"%char :: chars_of_uint u
  | Decimal.D8 u => "8"%char :: chars_of_uint u
  | Decimal.D9 u => "9"%char :: chars_of_uint u
  end.


(** [str(n)] for a natural number, as a character list. *)
Definition chars_of_N (n : N) : list ascii := chars_of_uint (N.to_uint n).

(** [int.__repr__] *)
Definition chars_of_Z (z : Z) : list ascii :=
  match z with
  | Z.neg p => "-"%char :: chars_of_N (N.pos p)
  | _ => chars_of_N (Z.to_N z)
  end.

(** [str(n)], used to print the [<int:service_id>] segment of a path. *)
Definition string_of_N (n : N) : string := string_of_list_ascii (chars_of_N n).

(** [str(n)] for an [int]; it is also the text SQLite writes for an INTEGER. *)
Definition string_of_Z (z : Z) : string := string_of_list_ascii (chars_of_Z z).

(** An [int] that SQLite's INTEGER holds: 64 bits, signed. *)
Definition int64 (z : Z) : bool := (- 2 ^ 63 <=? z) && (z <? 2 ^ 63).

(** ** JSON text *)

Definition dquote : ascii := "034"%char.
Definition backslash : ascii := "\"%char.

Definition chars (s : string) : list ascii := list_ascii_of_string s.

Definition in_range (lo hi : N) (c : ascii) : bool :=
  ((lo <=? N_of_ascii c) && (N_of_ascii c <=? hi))%N.

Definition is_digit (c : ascii) : bool := in_range 48 57 c.






Fixpoint join (sep : list ascii) (parts : list (list ascii)) : list ascii :=
  match parts with
  | [] => []
  | [x] => x
  | x :: rest => x ++ sep ++ join sep rest
  end.

(** *** Text: the code points of a [str] *)

(** A byte that continues a UTF-8 sequence, and the six bits it carries. *)
Definition is_continuation (c : ascii) : bool := in_range 128 191 c.

Definition continuation_bits (c : ascii) : N := (N_of_ascii c - 128)%N.

Definition is_high_surrogate (n : N) : bool := ((55296 <=? n) && (n <=? 56319))%N.

Definition is_low_surrogate (n : N) : bool := ((56320 <=? n) && (n <=? 57343))%N.

Definition is_surrogate (n : N) : bool := is_high_surrogate n || is_low_surrogate n.

(** The first code point of a UTF-8 text and the bytes after it; [None]
    when no well-formed sequence starts the text.  Overlong forms,
    surrogates and code points above U+10FFFF are not well formed. *)
Definition utf8_head (s : list ascii) : option (N * list ascii) :=
  match s with
  | [] => None
  | a :: r =>
      let x := N_of_ascii a in
      if (x <? 128)%N then Some (x, r)
      else if (x <? 224)%N then
        match r with
        | b :: r1 =>
            if (194 <=? x)%N && is_continuation b
            then Some (((x - 192) * 64 + continuation_bits b)%N, r1)
            else None
        | _ => None
        end
      else if (x <? 240)%N then
        match r with
        | b :: c :: r2 =>
            let n := (((x - 224) * 64 + continuation_bits b) * 64
                      + continuation_bits c)%N in
            if is_continuation b && is_continuation c && (2048 <=? n)%N
               && negb (is_surrogate n)
            then Some (n, r2)
            else None
        | _ => None
        end
      else
        match r with
        | b :: c :: d :: r3 =>
            let n := ((((x - 240) * 64 + continuation_bits b) * 64
                       + continuation_bits c) * 64 + continuation_bits d)%N in
            if is_continuation b && is_continuation c && is_continuation d
               && (65536 <=? n)%N && (n <=? 1114111)%N
            then Some (n, r3)
            else None
        | _ => None
        end
  end.

(** The code points of a UTF-8 text; [None] when the bytes are not UTF-8.
    The fuel is the number of bytes still to read. *)
Fixpoint utf8_decode_fuel (n : nat) (s : list ascii) : option (list N) :=
  match s with
  | [] => Some []
  | _ :: _ =>
      match n with
      | O => None
      | S n' =>
          match utf8_head s with
          | Some (cp, r) =>
              match utf8_decode_fuel n' r with
              | Some l => Some (cp :: l)
              | None => None
              end
          | None => None
          end
      end
  end.

Definition utf8_decode (s : list ascii) : option (list N) :=
  utf8_decode_fuel (length s) s.


(** The characters of a [str].  Bytes that are not UTF-8 stand for no
    [str]; they are read one character a byte. *)
Definition code_points (s : list ascii) : list N :=
  match utf8_decode s with
  | Some l => l
  | None => map N_of_ascii s
  end.


(** *** Strings: [json.dumps] escapes with [ensure_ascii] *)

Definition hex_digit (n : N) : ascii :=
  if (n <? 10)%N then ascii_of_N (48 + n) else ascii_of_N (87 + n).

(** The four lower-case hexadecimal digits of a number below 65536. *)
Definition hex4 (n : N) : list ascii :=
  [hex_digit (n / 4096); hex_digit ((n / 256) mod 16);
   hex_digit ((n / 16) mod 16); hex_digit (n mod 16)]%N.

(** What [ESCAPE_ASCII] writes for an ASCII character: the short escapes of
    [ESCAPE_DCT], the character itself from space to tilde, and a
    four-digit hexadecimal escape for the rest. *)
Definition escape_char (c : ascii) : list ascii :=
  if Ascii.eqb c dquote then [backslash; dquote]
  else if Ascii.eqb c backslash then [backslash; backslash]
  else if Ascii.eqb c "010" then [backslash; "n"%char]
  else if Ascii.eqb c "013" then [backslash; "r"%char]
  else if Ascii.eqb c "009" then [backslash; "t"%char]
  else if Ascii.eqb c "012" then [backslash; "f"%char]
  else if Ascii.eqb c "008" then [backslash; "b"%char]
  else if in_range 32 126 c then [c]
  else backslash :: "u"%char :: hex4 (N_of_ascii c).

(** What [ESCAPE_ASCII] writes for a character: an ASCII character as
    above, a character of the basic plane as one hexadecimal escape, and a
    character beyond it as a surrogate pair. *)
Definition escape_code_point (n : N) : list ascii :=
  if (n <? 128)%N then escape_char (ascii_of_N n)
  else if (n <? 65536)%N then backslash :: "u"%char :: hex4 n
  else
    (backslash :: "u"%char :: hex4 (55296 + (n - 65536) / 1024)%N)
    ++ backslash :: "u"%char :: hex4 (56320 + (n - 65536) mod 1024)%N.

Definition dumps_str (s : string) : list ascii :=
  dquote :: flat_map escape_code_point (code_points (chars s)) ++ [dquote].





(** *** Numbers *)

(** The integer part of [NUMBER_RE]: a single zero, or digits that do not
    start with a zero. *)
Definition valid_int_part (s : list ascii) : bool :=
  match s with
  | [] => false
  | [c] => is_digit c
  | c :: _ => negb (Ascii.eqb c "0")
  end.








(** ** Well-formed values *)








(** A value that is neither a list nor a dict. *)
Definition scalar (v : pyval) : bool :=
  match v with
  | PList _ => false
  | PDict _ => false
  | _ => true
  end.

(** The value [d.get(k, default)] has on a dict. *)
Definition field (d : list (string * pyval)) (k : string) (default : pyval) : pyval :=
  match assoc k d with
  | Some v => v
  | None => default
  end.

(** A form field that was sent and is not empty. *)
Definition present (form : list (string * string)) (key : string) : bool :=
  match assoc key form with
  | Some s => negb (String.eqb s "")
  | None => false
  end.

(** ** Instances of the library functions used by the closed examples *)

(** A hash that is the password itself, whatever the salt. *)
Definition plain_generate (salt password : string) : string := password.

Definition plain_check (pwhash password : string) : bool :=
  String.eqb password pwhash.

(** A [float.__repr__] and a [float(str)] that know three numerals. *)
Definition one_half : spec_float := S754_finite false 4503599627370496 (-53).

Definition small_repr (f : spec_float) : string :=
  match f with
  | S754_zero false => "0.0"
  | S754_zero true => "-0.0"
  | _ => "0.5"
  end.

Definition small_float (s : string) : option spec_float :=
  if String.eqb s "0.0" then Some (S754_zero false)
  else if String.eqb s "-0.0" then Some (S754_zero true)
  else if String.eqb s "0.5" then Some one_half
  else None.

(** The text of a number in a column of TEXT affinity, for the same three
    floats. *)
Definition small_real_text (f : spec_float) : ascii * string :=
  match f with
  | S754_zero _ => ("0"%char, ".0")
  | _ => ("0"%char, ".5")
  end.

(** The Flask session of a client: a dict. *)
Abbreviation session := (gmap string pyval).

(** * The application *)

Section Application.

(** werkzeug's [generate_password_hash], as a function of the salt it draws
    and of the password, and [check_password_hash]. *)
Variable generate_password_hash : string -> string -> string.
Variable check_password_hash : string -> string -> bool.

(** Python's [float.__repr__] and [float(s)] on a [str]. *)
Variable float_repr : spec_float -> string.
Variable float_of_str : string -> option spec_float.

(** The text SQLite writes for a REAL that is stored in a column of TEXT
    affinity, as its first character and the rest: it is never empty. *)
Variable sqlite_real_text : spec_float -> ascii * string.

(** [float(v)] *)
Definition py_float (v : pyval) : result spec_float :=
  match v with
  | PNone => Raise TypeError
  | PBool b => float_of_int (if b then 1 else 0)
  | PInt z => float_of_int z
  | PFloat f => Ok f
  | PStr s =>
      match float_of_str s with
      | Some f => Ok f
      | None => Raise ValueError
      end
  | PList _ => Raise TypeError
  | PDict _ => Raise TypeError
  end.

(** ** [json.dumps] with its default arguments *)

Definition dumps_float (f : spec_float) : list ascii :=
  match f with
  | S754_nan => chars "NaN"
  | S754_infinity false => chars "Infinity"
  | S754_infinity true => chars "-Infinity"
  | _ => chars (float_repr f)
  end.

Fixpoint dumps (v : pyval) : list ascii :=
  match v with
  | PNone => chars "null"
  | PBool true => chars "true"
  | PBool false => chars "false"
  | PInt z => chars_of_Z z
  | PFloat f => dumps_float f
  | PStr s => dumps_str s
  | PList l => "["%char :: join (chars ", ") (map dumps l) ++ ["]"%char]
  | PDict d =>
      "{"%char ::
      join (chars ", ")
        (map (fun kv => dumps_str (fst kv) ++ chars ": " ++ dumps (snd kv)) d)
      ++ ["}"%char]
  end.

Definition json_dumps (v : pyval) : string := string_of_list_ascii (dumps v).

(** ** [json.loads] *)







(** ** Models *)

Record Service : Type := mkService {
  service_id : N;
  service_name : pyval;
  service_description : pyval;
  service_price_display : pyval;
  service_image_file : pyval
}.

Record User : Type := mkUser {
  user_id : N;
  user_username : string;
  user_password_hash : string
}.

Record Order : Type := mkOrder {
  order_id : N;
  order_items_json : string;
  order_total : spec_float;
  order_name : pyval;
  order_email : pyval;
  order_message : pyval;
  order_created_at : N
}.

Record Contact : Type := mkContact {
  contact_id : N;
  contact_name : pyval;
  contact_email : pyval;
  contact_message : pyval;
  contact_created_at : N
}.

(** The four tables, each in insertion order. *)
Record database : Type := mkDatabase {
  users : list User;
  services : list Service;
  orders : list Order;
  contacts : list Contact
}.

Definition empty_db : database := mkDatabase [] [] [] [].

(** The key an [Integer] primary key gets on insertion: one more than the
    largest key of the table. *)
Definition next_id (ids : list N) : N := (1 + fold_right N.max 0 ids)%N.

(** What a column of TEXT affinity ([String], [Text]) keeps of the value
    bound to it, as a later query reads it.  SQLAlchemy hands the value to
    [sqlite3] as it is.  A [str] is kept; an [int] within 64 bits and a
    [bool] are kept as the text of the integer, a [float] as the text of the
    real; [None] is NULL, and so is NaN, which violates [nullable=False];
    a larger [int], a list and a dict are not bound at all. *)
Definition text_column (nullable : bool) (v : pyval) : result pyval :=
  match v with
  | PStr s => Ok (PStr s)
  | PBool b => Ok (PStr (if b then "1" else "0"))
  | PInt z => if int64 z then Ok (PStr (string_of_Z z)) else Raise OverflowError
  | PFloat S754_nan => if nullable then Ok PNone else Raise IntegrityError
  | PFloat f => Ok (PStr (let (c, s) := sqlite_real_text f in String c s))
  | PNone => if nullable then Ok PNone else Raise IntegrityError
  | PList _ => Raise ProgrammingError
  | PDict _ => Raise ProgrammingError
  end.

(** What the [Float] column with [nullable=False] keeps of a float: NaN is
    bound as NULL and refused; a zero is kept without its sign; any other
    float, the infinities included, is kept as it is. *)
Definition real_column (f : spec_float) : result spec_float :=
  match f with
  | S754_nan => Raise IntegrityError
  | S754_zero _ => Ok (S754_zero false)
  | _ => Ok f
  end.

(** [db.session.add(Contact(...)); db.session.commit()] *)
Definition insert_contact (db : database) (name email message : pyval) (now : N)
  : result database :=
  let* name := text_column false name in
  let* email := text_column false email in
  let* message := text_column false message in
  let row := mkContact (next_id (map contact_id (contacts db)))
               name email message now in
  Ok (mkDatabase (users db) (services db) (orders db) (contacts db ++ [row])).

(** [db.session.add(Order(...)); db.session.commit()] *)
Definition insert_order (db : database) (items_json : string) (total : spec_float)
    (name email message : pyval) (now : N) : result database :=
  let* total := real_column total in
  let* name := text_column false name in
  let* email := text_column false email in
  let* message := text_column true message in
  let row := mkOrder (next_id (map order_id (orders db)))
               items_json total name email message now in
  Ok (mkDatabase (users db) (services db) (orders db ++ [row]) (contacts db)).

(** [db.session.add(Service(...)); db.session.commit()] *)
Definition insert_service (db : database)
    (name description price_display image_file : pyval) : result database :=
  let* name := text_column false name in
  let* description := text_column false description in
  let* price_display := text_column false price_display in
  let* image_file := text_column false image_file in
  let row := mkService (next_id (map service_id (services db)))
               name description price_display image_file in
  Ok (mkDatabase (users db) (services db ++ [row]) (orders db) (contacts db)).

(** The commit of an attribute assignment on a loaded [Service]. *)
Definition update_service (db : database) (s : Service) : result database :=
  let* name := text_column false (service_name s) in
  let* description := text_column false (service_description s) in
  let* price_display := text_column false (service_price_display s) in
  let* image_file := text_column false (service_image_file s) in
  let s' := mkService (service_id s) name description price_display image_file in
  Ok (mkDatabase (users db)
        (map (fun r => if N.eqb (service_id r) (service_id s) then s' else r)
             (services db))
        (orders db) (contacts db)).

(** [db.session.delete(service); db.session.commit()] *)
Definition remove_service (db : database) (s : Service) : database :=
  mkDatabase (users db)
    (List.filter (fun r => negb (N.eqb (service_id r) (service_id s))) (services db))
    (orders db) (contacts db).

(** [Service.query.get_or_404(service_id)].  The id is bound to the query
    as an INTEGER, which [sqlite3] refuses for an id of 2^63 or more. *)
Definition get_or_404 (id : N) (db : database) : result Service :=
  if (id <? 2 ^ 63)%N then
    match List.find (fun r => N.eqb (service_id r) id) (services db) with
    | Some s => Ok s
    | None => Raise NotFound
    end
  else Raise OverflowError.

(** [query.order_by(created_at.desc()).all()]: newest first, rows of one
    instant in the order of the table.  [insert_desc] puts a row in front
    of a list of rows that come after it in the table. *)
Fixpoint insert_desc {A : Type} (key : A -> N) (x : A) (l : list A) : list A :=
  match l with
  | [] => [x]
  | y :: l' => if (key y <=? key x)%N then x :: l else y :: insert_desc key x l'
  end.

Definition order_by_desc {A : Type} (key : A -> N) (l : list A) : list A :=
  fold_right (insert_desc key) [] l.

(** ** Seed data *)

Definition DEFAULT_ADMIN_USERNAME : string := "admin".
Definition DEFAULT_ADMIN_PASSWORD : string := "admin123".

Definition services_seed : list (pyval * pyval * pyval * pyval) :=
  [ (PStr "Market Research",
     PStr "Gain deep insights into your market and customers to make informed decisions.",
     PStr "Starting from $2,999",
     PStr "market_research.png");
    (PStr "Marketing",
     PStr "Reach your audience with effective marketing strategies and campaigns.",
     PStr "Design Your Bundle",
     PStr "lead_generation.png");
    (PStr "Apps and Software Development",
     PStr "Build high‑quality applications and software tailored to your needs.",
     PStr "Starting from $9,999",
     PStr "apps_development.png");
    (PStr "Business Strategy",
     PStr "Develop a clear business strategy that aligns with your goals and vision.",
     PStr "$2,999",
     PStr "business_strategy.png");
    (PStr "Operational Reporting",
     PStr "Monitor and improve your operations with comprehensive reporting tools.",
     PStr "Check Monthly / Yearly Bundles",
     PStr "operational_reporting.png");
    (PStr "Offshore Teams",
     PStr "Build and manage offshore call centers and social media management teams to enhance efficiency and reduce costs.",
     PStr "Tailored pricing",
     PStr "offshore_teams.png");
    (PStr "Lead Generation",
     PStr "Generate high‑quality leads through targeted strategies and tools to grow your customer base.",
     PStr "Tailored pricing",
     PStr "lead_generation.png") ].

(** [db.session.add(Service( **svc ))] of the seeding loop; the rows get their
    keys at the commit, in the order they were added. *)
Definition add_seed (l : list Service) (svc : pyval * pyval * pyval * pyval)
  : list Service :=
  let '(name, description, price_display, image_file) := svc in
  l ++ [mkService (next_id (map service_id l))
          name description price_display image_file].

(** [seed_data()]; [salt] is the salt [generate_password_hash] draws. *)
Definition seed_data (salt : string) (db : database) : database :=
  let db1 :=
    match users db with
    | [] =>
        let admin :=
          mkUser (next_id [])
            DEFAULT_ADMIN_USERNAME
            (generate_password_hash salt DEFAULT_ADMIN_PASSWORD) in
        mkDatabase [admin] (services db) (orders db) (contacts db)
    | _ :: _ => db
    end in
  if Nat.eqb (length (services db1)) 0 then
    mkDatabase (users db1) (fold_left add_seed services_seed (services db1))
      (orders db1) (contacts db1)
  else db1.

(** ** Requests and responses *)

(** The two methods the routes name. *)
Inductive method : Type := GET | POST.

(** The URL rules, with the [<int:service_id>] of the two that have one,
    which the URL writes in decimal as [str] does. *)
Inductive route : Type :=
| index_rule
| services_rule
| about_rule
| blog_rule
| contact_rule
| checkout_rule
| order_rule
| login_rule
| logout_rule
| dashboard_rule
| add_service_rule
| edit_service_rule (sid : N)
| delete_service_rule (sid : N)
| privacy_policy_rule
| terms_and_conditions_rule.

(** [request.path] *)
Definition path (r : route) : string :=
  match r with
  | index_rule => "/"
  | services_rule => "/services"
  | about_rule => "/about"
  | blog_rule => "/blog"
  | contact_rule => "/contact"
  | checkout_rule => "/checkout"
  | order_rule => "/order"
  | login_rule => "/admin/login"
  | logout_rule => "/admin/logout"
  | dashboard_rule => "/admin/dashboard"
  | add_service_rule => "/admin/services/add"
  | edit_service_rule id => String.append "/admin/services/edit/" (string_of_N id)
  | delete_service_rule id => String.append "/admin/services/delete/" (string_of_N id)
  | privacy_policy_rule => "/privacy-policy"
  | terms_and_conditions_rule => "/terms-and-conditions"
  end.

(** The [methods] of each [@app.route]; [GET] alone when none is given. *)
Definition methods (r : route) : list method :=
  match r with
  | contact_rule => [GET; POST]
  | order_rule => [POST]
  | login_rule => [GET; POST]
  | add_service_rule => [GET; POST]
  | edit_service_rule _ => [GET; POST]
  | delete_service_rule _ => [POST]
  | _ => [GET]
  end.

Definition method_eqb (a b : method) : bool :=
  match a, b with
  | GET, GET => true
  | POST, POST => true
  | _, _ => false
  end.

(** A request: its method, the rule its URL matched, its form fields, its
    decoded JSON body ([request.get_json()], a value [json.loads] returned),
    and the reading of the clock ([datetime.utcnow]) while it is served.  A
    request whose body is not JSON never gets past [get_json] and is not
    modelled. *)
Record request : Type := mkRequest {
  req_method : method;
  req_route : route;
  req_form : list (string * string);
  req_json : pyval;
  req_now : N
}.

(** [request.form.get(key)] *)
Definition form_get (req : request) (key : string) : pyval :=
  match assoc key (req_form req) with
  | Some s => PStr s
  | None => PNone
  end.

(** [url_for(endpoint, **values)] *)
Inductive url : Type :=
| url_for (endpoint : string) (values : list (string * string)).

(** A keyword argument of [render_template]. *)
Inductive ctxval : Type :=
| CNone
| CStr (s : string)
| CService (s : Service)
| CServices (l : list Service)
| COrders (l : list Order)
| CContacts (l : list Contact).

Inductive response : Type :=
| render_template (template : string) (context : list (string * ctxval))
| jsonify (status : Z) (body : pyval)
| redirect (location : url)
| abort (status : Z).

(** [session.get(key)] *)
Definition session_get (sess : session) (key : string) : pyval :=
  match sess !! key with
  | Some v => v
  | None => PNone
  end.

Definition view : Type :=
  request -> session -> database -> result (response * session * database).

(** ** Auth utilities *)

Definition admin_required (f : view) : view :=
  fun req sess db =>
    if negb (truthy (session_get sess "admin_logged_in")) then
      Ok (redirect (url_for "login" [("next", path (req_route req))]), sess, db)
    else f req sess db.

(** [User.verify_password]: werkzeug encodes the password before it hashes
    it, which a missing form field ([None]) does not support. *)
Definition verify_password (u : User) (password : pyval) : result bool :=
  match password with
  | PStr p => Ok (check_password_hash (user_password_hash u) p)
  | _ => Raise AttributeError
  end.

(** ** Routes *)

Definition index : view := fun req sess db =>
  Ok (render_template "index.html" [("services", CServices (services db))],
      sess, db).

Definition services_page : view := fun req sess db =>
  Ok (render_template "services.html" [("services", CServices (services db))],
      sess, db).

Definition static_page (template : string) : view := fun req sess db =>
  Ok (render_template template [], sess, db).

Definition about_page : view := static_page "about.html".
Definition blog_page : view := static_page "blog.html".
Definition checkout_page : view := static_page "checkout.html".
Definition privacy_policy : view := static_page "privacy-policy.html".
Definition terms_and_conditions : view := static_page "terms-and-conditions.html".

Definition contact_page : view := fun req sess db =>
  match req_method req with
  | POST =>
      let name := form_get req "name" in
      let email := form_get req "email" in
      let message := form_get req "message" in
      if negb (py_all [name; email; message]) then
        Ok (jsonify 400
              (PDict [("status", PStr "error");
                      ("message", PStr "All fields are required.")]),
            sess, db)
      else
        let* db' := insert_contact db name email message (req_now req) in
        Ok (jsonify 200 (PDict [("status", PStr "success")]), sess, db')
  | GET => Ok (render_template "contact.html" [], sess, db)
  end.

Definition order : view := fun req sess db =>
  let data := py_or (req_json req) (PDict []) in
  let* items := py_get data "items" (PList []) in
  let* total := py_get data "total" (PInt 0) in
  let* name := py_get data "name" PNone in
  let* email := py_get data "email" PNone in
  let* message := py_get data "message" (PStr "") in
  if negb (truthy items) || negb (truthy name) || negb (truthy email) then
    Ok (jsonify 400
          (PDict [("status", PStr "error");
                  ("message", PStr "Missing required information.")]),
        sess, db)
  else
    let items_json := json_dumps items in
    let* total_float := py_float total in
    let* db' := insert_order db items_json total_float name email message
                  (req_now req) in
    Ok (jsonify 200 (PDict [("status", PStr "success")]), sess, db').

Definition filter_by_username (username : pyval) (l : list User) : option User :=
  List.find
    (fun u =>
       match username with
       | PStr s => String.eqb (user_username u) s
       | _ => false
       end) l.

Definition login : view := fun req sess db =>
  match req_method req with
  | POST =>
      let username := form_get req "username" in
      let password := form_get req "password" in
      let user := filter_by_username username (users db) in
      let* verified :=
        match user with
        | Some u => verify_password u password
        | None => Ok false
        end in
      if verified then
        Ok (redirect (url_for "dashboard" []),
            <["admin_logged_in" := PBool true]> sess, db)
      else
        Ok (render_template "login.html" [("error", CStr "Invalid credentials")],
            sess, db)
  | GET => Ok (render_template "login.html" [], sess, db)
  end.

Definition logout : view := fun req sess db =>
  Ok (redirect (url_for "login" []), delete "admin_logged_in" sess, db).

Definition dashboard : view := fun req sess db =>
  Ok (render_template "dashboard.html"
        [("services", CServices (services db));
         ("orders", COrders (order_by_desc order_created_at (orders db)));
         ("contacts", CContacts (order_by_desc contact_created_at (contacts db)))],
      sess, db).

Definition add_service : view := fun req sess db =>
  match req_method req with
  | POST =>
      let name := form_get req "name" in
      let description := form_get req "description" in
      let price_display := form_get req "price_display" in
      let image_file := py_or (form_get req "image_file") (PStr "placeholder.png") in
      if negb (py_all [name; description; price_display]) then
        Ok (render_template "service_form.html"
              [("error", CStr "All fields are required"); ("service", CNone)],
            sess, db)
      else
        let* db' := insert_service db name description price_display image_file in
        Ok (redirect (url_for "dashboard" []), sess, db')
  | GET => Ok (render_template "service_form.html" [("service", CNone)], sess, db)
  end.

Definition edit_service (sid : N) : view := fun req sess db =>
  let* service := get_or_404 sid db in
  match req_method req with
  | POST =>
      let image_file := form_get req "image_file" in
      let service' :=
        mkService (service_id service)
          (form_get req "name")
          (form_get req "description")
          (form_get req "price_display")
          (if truthy image_file then image_file else service_image_file service) in
      let* db' := update_service db service' in
      Ok (redirect (url_for "dashboard" []), sess, db')
  | GET =>
      Ok (render_template "service_form.html" [("service", CService service)],
          sess, db)
  end.

Definition delete_service (sid : N) : view := fun req sess db =>
  let* service := get_or_404 sid db in
  Ok (redirect (url_for "dashboard" []), sess, remove_service db service).

(** ** The application *)

(** [app.view_functions], each with the decorators it has in the source. *)
Definition view_functions (r : route) : view :=
  match r with
  | index_rule => index
  | services_rule => services_page
  | about_rule => about_page
  | blog_rule => blog_page
  | contact_rule => contact_page
  | checkout_rule => checkout_page
  | order_rule => order
  | login_rule => login
  | logout_rule => logout
  | dashboard_rule => admin_required dashboard
  | add_service_rule => admin_required add_service
  | edit_service_rule id => admin_required (edit_service id)
  | delete_service_rule id => admin_required (delete_service id)
  | privacy_policy_rule => privacy_policy
  | terms_and_conditions_rule => terms_and_conditions
  end.

(** One request: 405 when the rule does not take the method; the view's
    response otherwise; 404 for [NotFound]; 500 for any other exception,
    with the session and the database as they were. *)
Definition handle (req : request) (st : session * database)
  : response * (session * database) :=
  if existsb (method_eqb (req_method req)) (methods (req_route req)) then
    match view_functions (req_route req) req (fst st) (snd st) with
    | Ok (resp, sess, db) => (resp, (sess, db))
    | Raise NotFound => (abort 404, st)
    | Raise _ => (abort 500, st)
    end
  else (abort 405, st).

(** The Order a POST to [/order] stores for the body [d]: the items as
    [json.dumps] writes them, with the total, the name, the email and the
    message that the columns keep. *)
Definition order_of (d : list (string * pyval)) (total : spec_float)
    (name email message : pyval) (now : N) (db : database) : Order :=
  mkOrder (next_id (map order_id (orders db)))
    (json_dumps (field d "items" (PList [])))
    total name email message now.

Definition with_order (db : database) (row : Order) : database :=
  mkDatabase (users db) (services db) (orders db ++ [row]) (contacts db).

(** The states the application goes through: it starts on an empty database,
    which it seeds; it serves requests; it may be restarted, which seeds
    again; a client may drop its cookie. *)
Inductive reachable : session * database -> Prop :=
| reachable_start salt :
    reachable (∅, seed_data salt empty_db)
| reachable_handle req st :
    reachable st -> reachable (snd (handle req st))
| reachable_restart salt st :
    reachable st -> reachable (fst st, seed_data salt (snd st))
| reachable_no_cookie st :
    reachable st -> reachable (∅, snd st).

(** The rules whose view the source decorates with [admin_required]. *)
Definition decorated (r : route) : bool :=
  match r with
  | dashboard_rule => true
  | add_service_rule => true
  | edit_service_rule _ => true
  | delete_service_rule _ => true
  | _ => false
  end.

(** The rules under [/admin/] other than the login rule. *)
Definition admin_rule (r : route) : bool :=
  match r with
  | logout_rule => true
  | _ => decorated r
  end.

(** The session holds a truthy [admin_logged_in]. *)
Definition admin_logged_in (sess : session) : bool :=
  truthy (session_get sess "admin_logged_in").

(** Every stored image_file is a [str]. *)
Definition image_files_are_str (db : database) : Prop :=
  Forall (fun s => exists img, service_image_file s = PStr img) (services db).

(** The database with another table of services. *)
Definition with_services (db : database) (l : list Service) : database :=
  mkDatabase (users db) l (orders db) (contacts db).

(** ** Conditions on the stored rows *)

(** A [str] that is not empty. *)
Definition nonempty_str (v : pyval) : Prop := exists s, v = PStr s /\ s <> "".

(** A [str], possibly empty. *)
Definition is_str (v : pyval) : Prop := exists s, v = PStr s.

(** The primary keys of each table are distinct. *)
Definition keys_distinct (db : database) : Prop :=
  List.NoDup (map user_id (users db))
  /\ List.NoDup (map service_id (services db))
  /\ List.NoDup (map order_id (orders db))
  /\ List.NoDup (map contact_id (contacts db)).

(** Every Contact has its three fields. *)
Definition contacts_complete (db : database) : Prop :=
  Forall (fun c => nonempty_str (contact_name c) /\ nonempty_str (contact_email c)
                   /\ nonempty_str (contact_message c))
         (contacts db).

(** Every Order has a name and an email, and items that were not empty. *)
Definition orders_complete (db : database) : Prop :=
  Forall (fun o => truthy (order_name o) = true /\ scalar (order_name o) = true
                   /\ truthy (order_email o) = true /\ scalar (order_email o) = true
                   /\ scalar (order_message o) = true
                   /\ exists items,
                        truthy items = true /\ order_items_json o = json_dumps items)
         (orders db).

(** No Service has a null column, and every Service has an image file. *)
Definition services_not_null (db : database) : Prop :=
  Forall (fun s => is_str (service_name s) /\ is_str (service_description s)
                   /\ is_str (service_price_display s)
                   /\ nonempty_str (service_image_file s))
         (services db).

(** Newest first. *)
Definition newest_first {A : Type} (created_at : A -> N) (a b : A) : Prop :=
  (created_at b <= created_at a)%N.

End Application.

(** ** States and requests of the closed examples *)

Definition example_db : database := seed_data plain_generate "salt" empty_db.

Definition anonymous : session * database := (∅, example_db).

Definition admin_session : session := {[ "admin_logged_in" := PBool true ]}.

Definition administrator : session * database := (admin_session, example_db).

Definition example_handle : request -> session * database -> response * (session * database) :=
  handle plain_check small_repr small_float small_real_text.

Definition example_items : pyval :=
  PList [PDict [("name", PStr "Marketing"); ("qty", PInt 2); ("price", PFloat one_half)]].

Definition example_customer : list (string * pyval) :=
  [("items", example_items); ("name", PStr "Ada"); ("email", PStr "ada@example.org")].

Definition example_order (total : pyval) : pyval :=
  PDict (("total", total) :: example_customer).

Definition example_login : request :=
  mkRequest POST login_rule [("username", "admin"); ("password", "admin123")] PNone 0.

Definition example_contact : request :=
  mkRequest POST contact_rule
    [("name", "Ada"); ("email", "ada@example.org"); ("message", "Hello")] PNone 3.

(** An admin session on a database that has taken a contact and two orders,
    the second order stamped later than the first. *)
Definition busy : session * database :=
  snd (example_handle (mkRequest POST order_rule [] (example_order (PInt 40)) 9)
         (snd (example_handle (mkRequest POST order_rule [] (example_order (PInt 15)) 5)
                 (snd (example_handle example_contact
                         (snd (example_handle example_login anonymous))))))).

Definition example_service_form : list (string * string) :=
  [("name", "Audit"); ("description", "A review of your books."); ("price_display", "$500")].

(** * Properties *)

Section Properties.

Variable generate_password_hash : string -> string -> string.
Variable check_password_hash : string -> string -> bool.
Variable float_repr : spec_float -> string.
Variable float_of_str : string -> option spec_float.
Variable sqlite_real_text : spec_float -> ascii * string.

Local Abbreviation serve :=
  (handle check_password_hash float_repr float_of_str sqlite_real_text).
Local Abbreviation seed := (seed_data generate_password_hash).
Local Abbreviation reach :=
  (reachable generate_password_hash check_password_hash float_repr float_of_str
     sqlite_real_text).
Local Abbreviation keep := (text_column sqlite_real_text).

(** Case analysis on every branch of a view. *)
Ltac inspect_view :=
  repeat first
    [ progress unfold bind, insert_contact, insert_order, insert_service,
        update_service, remove_service, py_get, get_or_404, verify_password in *
    | case_match
    | progress simplify_eq ];
  try reflexivity.

Lemma truthy_form_get m r form json now key :
  truthy (form_get (mkRequest m r form json now) key) = present form key.
Proof. unfold form_get, present; cbn. destruct (assoc key form); reflexivity. Qed.

Lemma text_column_form_get m r form json now key :
  present form key = true ->
  keep false (form_get (mkRequest m r form json now) key)
  = Ok (form_get (mkRequest m r form json now) key).
Proof.
  unfold form_get, present; cbn. destruct (assoc key form); [reflexivity | discriminate].
Qed.

(** A column with [nullable=False] holds a [str], whatever was bound. *)
Lemma text_column_not_null v u : keep false v = Ok u -> is_str u.
Proof.
  unfold is_str. destruct v as [ |b|z|f|s|l|d]; cbn [text_column]; try discriminate.
  - intros [= <-]. eauto.
  - destruct (int64 z); [intros [= <-]; eauto | discriminate].
  - destruct f; try discriminate; intros [= <-]; eauto.
  - intros [= <-]. eauto.
Qed.

(** A column holds a [str] or NULL. *)
Lemma text_column_scalar nullable v u : keep nullable v = Ok u -> scalar u = true.
Proof.
  destruct v as [ |b|z|f|s|l|d]; cbn [text_column]; try discriminate.
  - destruct nullable; [intros [= <-]; reflexivity | discriminate].
  - intros [= <-]. reflexivity.
  - destruct (int64 z); [intros [= <-]; reflexivity | discriminate].
  - destruct f; try (intros [= <-]; reflexivity).
    destruct nullable; [intros [= <-]; reflexivity | discriminate].
  - intros [= <-]. reflexivity.
Qed.

(** What a column holds is bound again as it is. *)
Lemma text_column_again nullable v u : keep nullable v = Ok u -> keep nullable u = Ok u.
Proof.
  destruct v as [ |b|z|f|s|l|d]; cbn [text_column]; try discriminate.
  - destruct nullable; [intros [= <-]; reflexivity | discriminate].
  - intros [= <-]. reflexivity.
  - destruct (int64 z); [intros [= <-]; reflexivity | discriminate].
  - destruct f; try (intros [= <-]; reflexivity).
    destruct nullable; [intros [= <-]; reflexivity | discriminate].
  - intros [= <-]. reflexivity.
Qed.

(** ** Contact form *)

(** C2. A POST to [/contact] whose name, email and message are all sent and
    non-empty appends exactly one Contact holding them and answers
    [{status: success}]; a POST where one of the three is missing or empty
    leaves the session and the database as they were and answers 400 with
    [{status: error, message: ...}]. *)
Theorem contact_post_creates_or_rejects form json now (sess : session) db :
  let req := mkRequest POST contact_rule form json now in
  (present form "name" && present form "email" && present form "message" = true ->
   serve req (sess, db) =
     (jsonify 200 (PDict [("status", PStr "success")]),
      (sess,
       mkDatabase (users db) (services db) (orders db)
         (contacts db ++
          [mkContact (next_id (map contact_id (contacts db)))
             (form_get req "name") (form_get req "email")
             (form_get req "message") now]))))
  /\
  (present form "name" && present form "email" && present form "message" = false ->
   serve req (sess, db) =
     (jsonify 400
        (PDict [("status", PStr "error");
                ("message", PStr "All fields are required.")]),
      (sess, db))).
Proof.
  intros req. subst req.
  unfold handle, view_functions, contact_page, py_all, insert_contact.
  cbn [req_method req_route methods existsb method_eqb orb fst snd forallb req_now].
  rewrite !truthy_form_get, andb_true_r, andb_assoc.
  split; intros H; rewrite H; cbn [negb].
  - apply andb_true_iff in H as [H Hm]. apply andb_true_iff in H as [Hn He].
    rewrite !text_column_form_get by assumption. reflexivity.
  - reflexivity.
Qed.


(** ** Seeding *)

Lemma seed_data_users salt db :
  users (seed salt db) =
  match users db with
  | [] => [mkUser 1 DEFAULT_ADMIN_USERNAME
             (generate_password_hash salt DEFAULT_ADMIN_PASSWORD)]
  | _ :: _ => users db
  end.
Proof.
  unfold seed_data. destruct (users db) eqn:Hu; cbn [services users];
    destruct (Nat.eqb _ 0); cbn [users]; auto.
Qed.

Lemma seed_data_services salt db :
  services (seed salt db) =
  match services db with
  | [] => fold_left add_seed services_seed []
  | _ :: _ => services db
  end.
Proof.
  unfold seed_data. destruct (users db); cbn [services];
    destruct (services db) eqn:Hs; cbn [length Nat.eqb services]; auto.
Qed.

Lemma seed_data_orders_contacts salt db :
  orders (seed salt db) = orders db /\ contacts (seed salt db) = contacts db.
Proof.
  unfold seed_data. destruct (users db); cbn [services];
    destruct (Nat.eqb _ 0); cbn; auto.
Qed.

Lemma database_eq (a b : database) :
  users a = users b -> services a = services b ->
  orders a = orders b -> contacts a = contacts b -> a = b.
Proof. destruct a, b; cbn; congruence. Qed.

(** C4. Seeding a second time changes nothing, whatever the first seeding
    started from and whatever salt the second would draw: no second admin, no
    second copy of the catalog.  The admin is inserted exactly when there is
    no User, the seven catalog Services exactly when there is no Service, and
    orders and contacts are never touched. *)
Theorem seed_data_idempotent salt salt' db :
  seed salt' (seed salt db) = seed salt db
  /\ users (seed salt db) =
       match users db with
       | [] => [mkUser 1 DEFAULT_ADMIN_USERNAME
                  (generate_password_hash salt DEFAULT_ADMIN_PASSWORD)]
       | _ :: _ => users db
       end
  /\ services (seed salt db) =
       match services db with
       | [] => fold_left add_seed services_seed []
       | _ :: _ => services db
       end
  /\ map service_id (fold_left add_seed services_seed []) = [1; 2; 3; 4; 5; 6; 7]%N
  /\ orders (seed salt db) = orders db
  /\ contacts (seed salt db) = contacts db.
Proof.
  pose proof (seed_data_orders_contacts salt db) as [Ho Hc].
  repeat split; auto using seed_data_users, seed_data_services.
  apply database_eq.
  - rewrite (seed_data_users salt'), (seed_data_users salt).
    destruct (users db); reflexivity.
  - rewrite (seed_data_services salt'), (seed_data_services salt).
    destruct (services db); reflexivity.
  - apply seed_data_orders_contacts.
  - apply seed_data_orders_contacts.
Qed.

(** ** The guard of the admin routes *)

Lemma method_allowed m r :
  In m (methods r) -> existsb (method_eqb m) (methods r) = true.
Proof.
  intros H. apply existsb_exists. exists m. split; [assumption | destruct m; reflexivity].
Qed.

Lemma guard_blocks (f : view) req (sess : session) db :
  admin_logged_in sess = false ->
  admin_required f req sess db =
  Ok (redirect (url_for "login" [("next", path (req_route req))]), sess, db).
Proof. unfold admin_required, admin_logged_in. intros ->. reflexivity. Qed.

Lemma guard_passes (f : view) req (sess : session) db :
  admin_logged_in sess = true -> admin_required f req sess db = f req sess db.
Proof. unfold admin_required, admin_logged_in. intros ->. reflexivity. Qed.

(** The sessions the application hands out: empty, or holding the flag the
    login handler sets. *)
Lemma view_functions_session r req (sess sess' : session) db db' resp :
  view_functions check_password_hash float_repr float_of_str sqlite_real_text
    r req sess db = Ok (resp, sess', db') ->
  sess = ∅ \/ sess = {[ "admin_logged_in" := PBool true ]} ->
  sess' = ∅ \/ sess' = {[ "admin_logged_in" := PBool true ]}.
Proof.
  intros H Hs.
  destruct r; cbn [view_functions] in H;
    unfold admin_required, index, services_page, about_page, blog_page,
      checkout_page, privacy_policy, terms_and_conditions, static_page,
      contact_page, order, login, logout, dashboard, add_service,
      edit_service, delete_service in H;
    inspect_view; try assumption.
  - right. destruct Hs as [-> | ->].
    + apply insert_empty.
    + rewrite insert_singleton. destruct (decide _); [reflexivity | congruence].
  - left. destruct Hs as [-> | ->].
    + apply delete_empty.
    + apply delete_singleton_eq.
Qed.

Lemma reachable_session st :
  reach st -> fst st = ∅ \/ fst st = {[ "admin_logged_in" := PBool true ]}.
Proof.
  induction 1 as [salt | req st _ IH | salt' st _ IH | st _ IH]; cbn [fst]; auto.
  unfold handle. destruct (existsb _ _); [|exact IH].
  destruct (view_functions _ _ _ _ _ _ _ _) as [[[resp sess'] db']|e] eqn:H.
  - cbn [fst snd]. eapply view_functions_session; eassumption.
  - destruct e; exact IH.
Qed.

(** C1. In every state the application reaches, a request, with a method
    its rule takes, to a rule under [/admin/] other than the login rule,
    from a session without a truthy [admin_logged_in], changes nothing and
    is answered with a redirect to the login route.  For the four decorated
    rules (dashboard, add, edit, delete) the guard answers, with the
    requested path as [next]; for logout the handler itself answers, and
    finds no flag to remove. *)
Theorem admin_rules_redirect_to_login req st :
  reach st ->
  admin_logged_in (fst st) = false ->
  admin_rule (req_route req) = true ->
  In (req_method req) (methods (req_route req)) ->
  serve req st =
    (redirect
       (url_for "login"
          (if decorated (req_route req) then [("next", path (req_route req))]
           else [])),
     st).
Proof.
  intros Hreach Hs Hrule Hm. apply reachable_session in Hreach.
  destruct st as [sess db]. cbn [fst] in *.
  unfold handle. rewrite (method_allowed _ _ Hm).
  destruct req as [m r form json now]. cbn [fst snd req_route req_method] in *.
  destruct r; try discriminate Hrule; cbn [view_functions decorated];
    try (rewrite guard_blocks by assumption; reflexivity).
  unfold logout. destruct Hreach as [-> | ->]; [|discriminate Hs].
  rewrite delete_empty. reflexivity.
Qed.

(** ** Lookups of a Service that does not exist *)

Lemma find_service_none sid (l : list Service) :
  (forall s, In s l -> service_id s <> sid) ->
  List.find (fun r => N.eqb (service_id r) sid) l = None.
Proof.
  induction l as [|r l IH]; intros H; [reflexivity|].
  cbn. destruct (N.eqb_spec (service_id r) sid) as [E|E].
  - exfalso. apply (H r); [left; reflexivity | exact E].
  - apply IH. intros s Hs. apply H. right. exact Hs.
Qed.

(** C9, as the code has it.  With an admin session, a POST to delete and a
    GET or a POST to edit a Service id below 2^63 that no row has answer 404
    and leave the session and the database as they were. *)
Theorem missing_service_is_not_found sid m form json now (sess : session) db :
  admin_logged_in sess = true ->
  (sid < 2 ^ 63)%N ->
  (forall s, In s (services db) -> service_id s <> sid) ->
  serve (mkRequest POST (delete_service_rule sid) form json now) (sess, db)
    = (abort 404, (sess, db))
  /\
  serve (mkRequest m (edit_service_rule sid) form json now) (sess, db)
    = (abort 404, (sess, db)).
Proof.
  intros Hs Hsid Hnone. apply find_service_none in Hnone.
  apply N.ltb_lt in Hsid.
  unfold handle; cbn [req_method req_route methods fst snd view_functions].
  rewrite !guard_passes by assumption.
  unfold delete_service, edit_service, get_or_404. rewrite Hsid, Hnone.
  split; [reflexivity | destruct m; reflexivity].
Qed.

(** An id of 2^63 or more is not looked up at all: the driver refuses to
    bind it and the answer is 500, whether a row has the id or not. *)
Lemma huge_service_id_is_refused sid m form json now (sess : session) db :
  admin_logged_in sess = true ->
  (2 ^ 63 <= sid)%N ->
  serve (mkRequest POST (delete_service_rule sid) form json now) (sess, db)
    = (abort 500, (sess, db))
  /\
  serve (mkRequest m (edit_service_rule sid) form json now) (sess, db)
    = (abort 500, (sess, db)).
Proof.
  intros Hs Hsid. apply N.ltb_ge in Hsid.
  unfold handle; cbn [req_method req_route methods fst snd view_functions].
  rewrite !guard_passes by assumption.
  unfold delete_service, edit_service, get_or_404. rewrite Hsid.
  split; [reflexivity | destruct m; reflexivity].
Qed.

(** ** What every request preserves *)

Lemma view_functions_users r req (sess sess' : session) db db' resp :
  view_functions check_password_hash float_repr float_of_str sqlite_real_text
    r req sess db
    = Ok (resp, sess', db') ->
  users db' = users db.
Proof.
  intros H.
  destruct r; cbn [view_functions] in H;
    unfold admin_required, index, services_page, about_page, blog_page,
      checkout_page, privacy_policy, terms_and_conditions, static_page,
      contact_page, order, login, logout, dashboard, add_service,
      edit_service, delete_service in H;
    inspect_view.
Qed.

Lemma handle_users req st : users (snd (snd (serve req st))) = users (snd st).
Proof.
  unfold handle. destruct (existsb _ _); [|reflexivity].
  destruct (view_functions _ _ _ _ _ _ _ _) as [[[resp sess'] db']|e] eqn:H.
  - cbn [snd]. eapply view_functions_users. exact H.
  - destruct e; reflexivity.
Qed.

(** In every state the application reaches, the only User is the seeded
    admin. *)
Lemma reachable_users st :
  reach st ->
  exists salt,
    users (snd st) =
    [mkUser 1 DEFAULT_ADMIN_USERNAME
       (generate_password_hash salt DEFAULT_ADMIN_PASSWORD)].
Proof.
  induction 1 as [salt | req st _ [salt IH] | salt' st _ [salt IH] | st _ [salt IH]].
  - exists salt. cbn [snd]. rewrite seed_data_users. reflexivity.
  - exists salt. rewrite handle_users. exact IH.
  - exists salt. cbn [snd]. rewrite seed_data_users, IH. reflexivity.
  - exists salt. exact IH.
Qed.

Lemma view_functions_image_files r req (sess sess' : session) db db' resp :
  view_functions check_password_hash float_repr float_of_str sqlite_real_text
    r req sess db
    = Ok (resp, sess', db') ->
  image_files_are_str db -> image_files_are_str db'.
Proof.
  intros H Hdb.
  destruct r; cbn [view_functions] in H;
    unfold admin_required, index, services_page, about_page, blog_page,
      checkout_page, privacy_policy, terms_and_conditions, static_page,
      contact_page, order, login, logout, dashboard, add_service,
      edit_service, delete_service in H;
    inspect_view; try assumption; unfold image_files_are_str in *; cbn [services].
  - apply Forall_app. split; [assumption|].
    constructor; [|constructor]. cbn [service_image_file].
    eapply text_column_not_null; eassumption.
  - apply Forall_map. eapply Forall_impl; [exact Hdb|].
    intros r Hr. cbn beta. destruct (N.eqb _ _); [|exact Hr].
    cbn [service_image_file]. eapply text_column_not_null; eassumption.
  - apply Forall_map. eapply Forall_impl; [exact Hdb|].
    intros r Hr. cbn beta. destruct (N.eqb _ _); [|exact Hr].
    cbn [service_image_file]. eapply text_column_not_null; eassumption.
  - apply List.Forall_forall. intros x Hx. apply List.filter_In in Hx as [Hx _].
    apply (proj1 (List.Forall_forall _ _) Hdb x Hx).
Qed.

Lemma handle_image_files req st :
  image_files_are_str (snd st) -> image_files_are_str (snd (snd (serve req st))).
Proof.
  intros Hdb. unfold handle. destruct (existsb _ _); [|exact Hdb].
  destruct (view_functions _ _ _ _ _ _ _ _) as [[[resp sess'] db']|e] eqn:H.
  - cbn [snd]. eapply view_functions_image_files; eassumption.
  - destruct e; exact Hdb.
Qed.

Lemma seed_data_image_files salt db :
  image_files_are_str db -> image_files_are_str (seed salt db).
Proof.
  unfold image_files_are_str. rewrite seed_data_services.
  destruct (services db); [intros _ | auto].
  repeat constructor; cbn [service_image_file]; eauto.
Qed.

(** In every state the application reaches, the image_file of every Service
    is a [str]. *)
Lemma reachable_image_files st : reach st -> image_files_are_str (snd st).
Proof.
  induction 1 as [salt | req st _ IH | salt' st _ IH | st _ IH].
  - apply seed_data_image_files. constructor.
  - apply handle_image_files. exact IH.
  - apply seed_data_image_files. exact IH.
  - exact IH.
Qed.

(** ** Editing a Service *)

Lemma find_service_some sid (l : list Service) s :
  List.find (fun r => N.eqb (service_id r) sid) l = Some s ->
  In s l /\ service_id s = sid.
Proof.
  intros H. apply List.find_some in H as [Hin Heq].
  split; [assumption | apply N.eqb_eq; assumption].
Qed.

Lemma find_service_replaced sid (l : list Service) s s' :
  List.find (fun r => N.eqb (service_id r) sid) l = Some s ->
  service_id s' = service_id s ->
  List.find (fun r => N.eqb (service_id r) sid)
    (map (fun r => if N.eqb (service_id r) (service_id s') then s' else r) l)
  = Some s'.
Proof.
  intros Hfind Hid. pose proof (find_service_some _ _ _ Hfind) as [_ Hsid].
  induction l as [|r l IH]; [discriminate|].
  cbn in Hfind |- *. destruct (N.eqb_spec (service_id r) sid) as [E|E].
  - assert (service_id r = service_id s') as -> by congruence.
    rewrite N.eqb_refl. rewrite Hid, Hsid, N.eqb_refl. reflexivity.
  - destruct (N.eqb_spec (service_id r) (service_id s')) as [E'|E']; [congruence|].
    destruct (N.eqb_spec (service_id r) sid); [contradiction|]. auto.
Qed.

Lemma get_or_404_found sid db s :
  get_or_404 sid db = Ok s ->
  (sid <? 2 ^ 63)%N = true
  /\ List.find (fun r => N.eqb (service_id r) sid) (services db) = Some s.
Proof.
  unfold get_or_404. destruct (sid <? 2 ^ 63)%N; [|discriminate].
  destruct (List.find _ (services db)); [|discriminate].
  intros [= ->]. auto.
Qed.

(** C6, as the code has it.  In every state the application reaches, for a
    POST to edit an existing Service from an admin session whose form sends
    a non-empty name, description and price_display: the row takes the three
    sent values, keeps its image_file when the sent image_file is missing or
    empty and takes the sent one when it is not empty, no other row changes,
    and the response redirects to the dashboard. *)
Theorem edit_service_image_file sid form json now (sess : session) db s :
  reach (sess, db) ->
  admin_logged_in sess = true ->
  get_or_404 sid db = Ok s ->
  present form "name" = true ->
  present form "description" = true ->
  present form "price_display" = true ->
  let req := mkRequest POST (edit_service_rule sid) form json now in
  let s' :=
    mkService (service_id s)
      (form_get req "name") (form_get req "description")
      (form_get req "price_display")
      (if present form "image_file" then form_get req "image_file"
       else service_image_file s) in
  let db' :=
    with_services db
      (map (fun r => if N.eqb (service_id r) (service_id s) then s' else r)
           (services db)) in
  serve req (sess, db) = (redirect (url_for "dashboard" []), (sess, db'))
  /\ get_or_404 sid db' = Ok s'
  /\ (present form "image_file" = false ->
      service_image_file s' = service_image_file s)
  /\ (forall v, assoc "image_file" form = Some v -> v <> "" ->
      service_image_file s' = PStr v).
Proof.
  intros Hreach Hs Hget Hn Hd Hp req s' db'. subst db' s' req.
  pose proof (get_or_404_found _ _ _ Hget) as [Hsid Hfind].
  assert (exists img, service_image_file s = PStr img) as [img Himg].
  { apply reachable_image_files in Hreach. cbn [snd] in Hreach.
    apply find_service_some in Hfind as [Hin _].
    apply (proj1 (List.Forall_forall _ _) Hreach s Hin). }
  split; [|split; [|split]].
  - unfold handle; cbn [req_method req_route methods existsb method_eqb orb fst snd
                        view_functions].
    rewrite guard_passes by assumption.
    unfold edit_service. rewrite Hget. cbn [bind req_method].
    rewrite truthy_form_get. unfold update_service.
    cbn [service_name service_description service_price_display
         service_image_file service_id].
    rewrite !text_column_form_get by assumption. cbn [bind].
    assert (keep false
              (if present form "image_file"
               then form_get (mkRequest POST (edit_service_rule sid) form json now)
                      "image_file"
               else service_image_file s)
            = Ok (if present form "image_file"
                  then form_get (mkRequest POST (edit_service_rule sid) form json now)
                         "image_file"
                  else service_image_file s)) as ->.
    { destruct (present form "image_file") eqn:Hi.
      - apply text_column_form_get. assumption.
      - rewrite Himg. reflexivity. }
    reflexivity.
  - unfold get_or_404. rewrite Hsid. unfold with_services; cbn [services].
    erewrite (find_service_replaced sid (services db) s (mkService (service_id s) _ _ _ _));
      [reflexivity | assumption | reflexivity].
  - cbn [service_image_file]. intros ->. reflexivity.
  - cbn [service_image_file]. intros v Hv Hne.
    unfold present, form_get. cbn [req_form]. rewrite Hv.
    apply String.eqb_neq in Hne. rewrite Hne. reflexivity.
Qed.

(** A POST to edit whose form omits the name, the description or the
    price_display is refused at the commit ([nullable=False]): the response
    is 500 and nothing changes. *)
Lemma edit_service_missing_field sid form json now (sess : session) db s :
  admin_logged_in sess = true ->
  get_or_404 sid db = Ok s ->
  assoc "name" form = None \/ assoc "description" form = None
  \/ assoc "price_display" form = None ->
  serve (mkRequest POST (edit_service_rule sid) form json now) (sess, db)
  = (abort 500, (sess, db)).
Proof.
  intros Hs Hget Hmissing.
  unfold handle; cbn [req_method req_route methods existsb method_eqb orb fst snd
                      view_functions].
  rewrite guard_passes by assumption.
  unfold edit_service. rewrite Hget. cbn [bind req_method].
  unfold update_service.
  cbn [service_name service_description service_price_display
       service_image_file service_id].
  unfold form_get at 1 2 3. cbn [req_form].
  destruct Hmissing as [-> | [-> | ->]]; cbn [bind text_column];
    repeat (destruct (assoc _ form); cbn [bind text_column]); reflexivity.
Qed.

(** ** Login *)

Lemma filter_by_username_admin username h :
  filter_by_username username [mkUser 1 DEFAULT_ADMIN_USERNAME h] =
  match username with
  | PStr s => if String.eqb DEFAULT_ADMIN_USERNAME s
              then Some (mkUser 1 DEFAULT_ADMIN_USERNAME h) else None
  | _ => None
  end.
Proof.
  unfold filter_by_username. cbn [List.find user_username].
  destruct username; try reflexivity.
Qed.

(** C5, as the code has it.  Let [check_password_hash] accept the seeded
    password for the hash [generate_password_hash] made of it.  Then in
    every state the application reaches the one User is the seeded admin,
    and a POST to [/admin/login]
    - with the seeded username and password sets [admin_logged_in] in the
      session and redirects to the dashboard;
    - with the seeded username and a password field succeeds in that way
      when [check_password_hash] accepts the password for the stored hash,
      and otherwise leaves the session and the database as they were and
      renders the login form with the one error [Invalid credentials];
    - with any other username, or none, is answered with that same page,
      whether a password is sent or not;
    - with the seeded username and no password field at all is answered
      500: the hash is never compared, [check_password_hash] raises. *)
Theorem login_post_spec form json now st :
  (forall salt,
     check_password_hash (generate_password_hash salt DEFAULT_ADMIN_PASSWORD)
       DEFAULT_ADMIN_PASSWORD = true) ->
  reach st ->
  let req := mkRequest POST login_rule form json now in
  let failed :=
    (render_template "login.html" [("error", CStr "Invalid credentials")], st) in
  let logged_in :=
    (redirect (url_for "dashboard" []),
     (<["admin_logged_in" := PBool true]> (fst st), snd st)) in
  exists pwhash,
    users (snd st) = [mkUser 1 DEFAULT_ADMIN_USERNAME pwhash]
    /\ (assoc "username" form = Some DEFAULT_ADMIN_USERNAME ->
        assoc "password" form = Some DEFAULT_ADMIN_PASSWORD ->
        serve req st = logged_in
        /\ admin_logged_in (fst (snd (serve req st))) = true)
    /\ (forall p,
          assoc "username" form = Some DEFAULT_ADMIN_USERNAME ->
          assoc "password" form = Some p ->
          serve req st = if check_password_hash pwhash p then logged_in else failed)
    /\ (assoc "username" form <> Some DEFAULT_ADMIN_USERNAME ->
        serve req st = failed)
    /\ (assoc "username" form = Some DEFAULT_ADMIN_USERNAME ->
        assoc "password" form = None ->
        serve req st = (abort 500, st)).
Proof.
  intros Hcheck Hreach req failed logged_in. subst req failed logged_in.
  destruct (reachable_users st Hreach) as [salt Hu]. destruct st as [sess db].
  cbn [fst snd] in *.
  exists (generate_password_hash salt DEFAULT_ADMIN_PASSWORD).
  split; [exact Hu|].
  unfold handle; cbn [req_method req_route methods existsb method_eqb orb fst snd
                      view_functions].
  unfold login; cbn [req_method]. rewrite Hu, filter_by_username_admin.
  unfold form_get; cbn [req_form].
  split; [|split; [|split]].
  - intros -> ->. cbn [String.eqb Ascii.eqb Bool.eqb DEFAULT_ADMIN_USERNAME].
    unfold verify_password; cbn [user_password_hash bind].
    rewrite Hcheck. split; [reflexivity|].
    cbn [fst snd]. unfold admin_logged_in, session_get.
    rewrite lookup_insert_eq. reflexivity.
  - intros p -> ->. cbn [String.eqb Ascii.eqb Bool.eqb DEFAULT_ADMIN_USERNAME].
    unfold verify_password; cbn [user_password_hash bind].
    destruct (check_password_hash _ p); reflexivity.
  - intros Hu'.
    destruct (assoc "username" form) as [u|]; [|reflexivity].
    destruct (String.eqb_spec DEFAULT_ADMIN_USERNAME u) as [E|E]; [|reflexivity].
    exfalso. apply Hu'. rewrite E. reflexivity.
  - intros -> ->. reflexivity.
Qed.

(** ** JSON text: what is written is read back *)



(** *** Strings *)

(** Division by a constant, for [lia] in the lemmas on bytes below. *)
Ltac Zify.zify_post_hook ::= Z.to_euclidean_division_equations.













Ltac Zify.zify_post_hook ::= idtac.

(** *** Digits *)


Lemma digits_chars_of_uint u : forallb is_digit (chars_of_uint u) = true.
Proof. induction u; cbn [chars_of_uint forallb]; try rewrite IHu; reflexivity. Qed.




Lemma valid_int_part_nzhead d :
  Decimal.nzhead d = Decimal.Nil
  \/ valid_int_part (chars_of_uint (Decimal.nzhead d)) = true.
Proof.
  induction d; cbn [Decimal.nzhead]; auto;
    right; cbn [chars_of_uint valid_int_part]; destruct (chars_of_uint d); reflexivity.
Qed.

Lemma valid_int_part_unorm d :
  valid_int_part (chars_of_uint (Decimal.unorm d)) = true.
Proof.
  unfold Decimal.unorm.
  destruct (valid_int_part_nzhead d) as [-> | H]; [reflexivity|].
  destruct (Decimal.nzhead d); [discriminate H | exact H ..].
Qed.

Lemma valid_int_part_chars_of_N n : valid_int_part (chars_of_N n) = true.
Proof.
  unfold chars_of_N.
  rewrite <- (DecimalN.Unsigned.of_to n) at 1. rewrite DecimalN.Unsigned.to_of.
  apply valid_int_part_unorm.
Qed.

Lemma chars_of_N_head n :
  exists c r, chars_of_N n = c :: r /\ is_digit c = true.
Proof.
  pose proof (valid_int_part_chars_of_N n) as Hv.
  pose proof (digits_chars_of_uint (N.to_uint n)) as Hd.
  fold (chars_of_N n) in Hd.
  destruct (chars_of_N n) as [|c r]; [discriminate Hv|].
  cbn [forallb] in Hd. apply andb_true_iff in Hd as [Hc _]. eauto.
Qed.


(** *** Integers *)




(** *** Numbers in the scanner *)









(** *** The first character of a written value *)





(** *** Dicts *)




(** *** Lists and dicts *)















(** *** The fuel [json_loads] takes is enough *)






(** ** The sign of [float(n)] *)

Lemma iter_pos_invariant {A : Type} (f : A -> A) (Q : A -> Prop) :
  (forall x, Q x -> Q (f x)) -> forall p x, Q x -> Q (SpecFloat.iter_pos f p x).
Proof.
  intros Hf. induction p as [p IH|p IH|]; intros x Hx; cbn [SpecFloat.iter_pos]; auto.
Qed.

Lemma shr_1_nonneg mrs : 0 <= shr_m mrs -> 0 <= shr_m (shr_1 mrs).
Proof.
  destruct mrs as [m r s]. cbn [shr_m]. intros H.
  destruct m as [|[p|p|]|p]; cbn [shr_1 shr_m]; lia.
Qed.

Lemma shr_fexp_nonneg prec emax m e l :
  0 <= m -> 0 <= shr_m (fst (shr_fexp prec emax m e l)).
Proof.
  intros H. unfold shr_fexp, shr.
  assert (0 <= shr_m (shr_record_of_loc m l)) as H0.
  { destruct l as [|[]]; exact H. }
  destruct (fexp prec emax (Zdigits2 m + e) - e); cbn [fst]; try exact H0.
  apply (iter_pos_invariant shr_1 (fun mrs => 0 <= shr_m mrs)); [|exact H0].
  apply shr_1_nonneg.
Qed.

Lemma round_nearest_even_nonneg m l : 0 <= m -> 0 <= round_nearest_even m l.
Proof.
  intros H. unfold round_nearest_even.
  destruct l as [|[]]; try destruct (Z.even m); lia.
Qed.

(** Rounding keeps the sign it is given: the result is a zero, a finite
    float or an infinity of that sign. *)
Lemma binary_round_sign prec emax sx mx ex :
  match binary_round prec emax sx mx ex with
  | S754_zero s => s = sx
  | S754_infinity s => s = sx
  | S754_finite s _ _ => s = sx
  | S754_nan => False
  end.
Proof.
  unfold binary_round.
  destruct (shl_align mx ex _) as [mz ez]. unfold binary_round_aux.
  pose proof (shr_fexp_nonneg prec emax (Z.pos mz) ez loc_Exact ltac:(lia)) as H1.
  destruct (shr_fexp prec emax (Z.pos mz) ez loc_Exact) as [mrs' e']. cbn [fst] in H1.
  pose proof (shr_fexp_nonneg prec emax
                (round_nearest_even (shr_m mrs') (loc_of_shr_record mrs')) e' loc_Exact
                (round_nearest_even_nonneg _ _ H1)) as H2.
  destruct (shr_fexp prec emax _ e' loc_Exact) as [mrs'' e'']. cbn [fst] in H2.
  destruct (shr_m mrs'') as [|m|m]; [reflexivity | | lia].
  destruct (e'' <=? emax - prec); reflexivity.
Qed.

(** [float(n)] of a non-negative integer is not below zero. *)
Lemma float_of_int_nonneg z t :
  0 <= z -> float_of_int z = Ok t -> SFleb (S754_zero false) t = true.
Proof.
  unfold float_of_int, binary_normalize. intros Hz.
  destruct z as [|p|p]; [intros [= <-]; reflexivity | | lia].
  pose proof (binary_round_sign 53 1024 false p 0) as Hs.
  destruct (binary_round 53 1024 false p 0) as [s|s| |s m e];
    intros [= <-]; subst; try reflexivity; contradiction.
Qed.

(** [float(n)] of a negative integer is not above zero. *)
Lemma float_of_int_nonpos z t :
  z < 0 -> float_of_int z = Ok t -> SFleb t (S754_zero false) = true.
Proof.
  unfold float_of_int, binary_normalize. intros Hz.
  destruct z as [|p|p]; [lia | lia |].
  pose proof (binary_round_sign 53 1024 true p 0) as Hs.
  destruct (binary_round 53 1024 true p 0) as [s|s| |s m e];
    intros [= <-]; subst; try reflexivity; contradiction.
Qed.

(** ** Orders *)

Lemma py_get_dict d k default : py_get (PDict d) k default = Ok (field d k default).
Proof. unfold py_get, field. destruct (assoc k d); reflexivity. Qed.


Lemma real_column_sign t total :
  real_column t = Ok total ->
  (SFleb (S754_zero false) t = true -> SFleb (S754_zero false) total = true)
  /\ (SFleb t (S754_zero false) = true -> SFleb total (S754_zero false) = true).
Proof.
  destruct t; cbn [real_column]; intros [= <-]; auto.
Qed.



(** A POST to [/order] either changes nothing or appends one Order, which
    holds what the columns keep of [float(total)], of the name, of the email
    and of the message. *)
Lemma order_post_cases form json now (sess : session) db :
  let res := serve (mkRequest POST order_rule form json now) (sess, db) in
  snd res = (sess, db)
  \/ exists d t total name email message,
       py_or json (PDict []) = PDict d
       /\ py_float float_of_str (field d "total" (PInt 0)) = Ok t
       /\ real_column t = Ok total
       /\ keep false (field d "name" PNone) = Ok name
       /\ keep false (field d "email" PNone) = Ok email
       /\ keep true (field d "message" (PStr "")) = Ok message
       /\ res = (jsonify 200 (PDict [("status", PStr "success")]),
                 (sess, with_order db
                          (order_of float_repr d total name email message now db))).
Proof.
  cbv zeta.
  unfold handle; cbn [req_method req_route methods existsb method_eqb orb fst snd
                      view_functions].
  unfold order; cbn [req_json req_now].
  destruct (py_or json (PDict [])) as [ | | | | | |d] eqn:Hd;
    try (left; reflexivity).
  rewrite !py_get_dict. cbn [bind].
  destruct (negb _ || negb _ || negb _); [left; reflexivity|].
  destruct (py_float float_of_str _) as [t|e] eqn:Ht; cbn [bind];
    [|left; destruct e; reflexivity].
  unfold insert_order.
  destruct (real_column t) as [total|e] eqn:Htotal; cbn [bind];
    [|left; destruct e; reflexivity].
  destruct (keep false (field d "name" PNone)) as [name|e] eqn:Hname; cbn [bind];
    [|left; destruct e; reflexivity].
  destruct (keep false (field d "email" PNone)) as [email|e] eqn:Hemail; cbn [bind];
    [|left; destruct e; reflexivity].
  destruct (keep true (field d "message" (PStr ""))) as [message|e] eqn:Hmessage;
    cbn [bind]; [|left; destruct e; reflexivity].
  right. exists d, t, total, name, email, message. auto 10.
Qed.


(** C8, as the code has it.  A POST to [/order] that creates an Order stores
    what the [Float] column keeps of [float(total)], [0.0] when the key is
    omitted.  The sign is not checked: the stored total is not below zero
    when the submitted total is a non-negative integer and is not above zero
    when it is a negative integer; a submitted float is stored as it is,
    whatever its sign, but for a zero, which is stored without its sign, and
    for NaN, with which no Order is created. *)
Theorem order_total_is_float_of_total form json now (sess : session) db :
  let db' := snd (snd (serve (mkRequest POST order_rule form json now) (sess, db))) in
  orders db' <> orders db ->
  exists d t row,
    py_or json (PDict []) = PDict d
    /\ orders db' = orders db ++ [row]
    /\ py_float float_of_str (field d "total" (PInt 0)) = Ok t
    /\ real_column t = Ok (order_total row)
    /\ (assoc "total" d = None -> order_total row = S754_zero false)
    /\ (forall z, assoc "total" d = Some (PInt z) -> 0 <= z ->
          SFleb (S754_zero false) (order_total row) = true)
    /\ (forall z, assoc "total" d = Some (PInt z) -> z < 0 ->
          SFleb (order_total row) (S754_zero false) = true)
    /\ (forall f, assoc "total" d = Some (PFloat f) ->
          match f with
          | S754_nan => False
          | S754_zero _ => order_total row = S754_zero false
          | _ => order_total row = f
          end).
Proof.
  intros db' Hchanged. subst db'.
  destruct (order_post_cases form json now sess db)
    as [Hsame | (d & t & total & name & email & message & Hd & Ht & Htotal & _ & _ & _ & Hres)].
  - exfalso. apply Hchanged. rewrite Hsame. reflexivity.
  - exists d, t, (order_of float_repr d total name email message now db).
    rewrite Hres. cbn [snd with_order orders order_of order_total].
    pose proof (real_column_sign t total Htotal) as [Hnonneg Hnonpos].
    unfold field in Ht.
    split; [exact Hd|]. split; [reflexivity|]. split; [exact Ht|].
    split; [exact Htotal|]. split; [|split; [|split]].
    + intros E. rewrite E in Ht. cbn in Ht. injection Ht as <-.
      cbn in Htotal. congruence.
    + intros z E Hz. rewrite E in Ht. cbn [py_float] in Ht.
      apply Hnonneg. eapply float_of_int_nonneg; eassumption.
    + intros z E Hz. rewrite E in Ht. cbn [py_float] in Ht.
      apply Hnonpos. eapply float_of_int_nonpos; eassumption.
    + intros f E. rewrite E in Ht. cbn [py_float] in Ht. injection Ht as <-.
      destruct f; cbn [real_column] in Htotal; congruence.
Qed.


(** * Further properties of the routes *)

(** Case analysis on the rule and on every branch of its view. *)
Ltac open_views H :=
  cbn [view_functions] in H;
  unfold admin_required, index, services_page, about_page, blog_page,
    checkout_page, privacy_policy, terms_and_conditions, static_page,
    contact_page, order, login, logout, dashboard, add_service,
    edit_service, delete_service in H.

Ltac by_view :=
  let H := fresh "Hview" in
  unfold handle; cbn [fst snd];
  match goal with
  | |- context [existsb ?f ?l] => destruct (existsb f l) eqn:?
  end;
  [ match goal with
    | |- context [view_functions ?c ?p ?q ?t ?r ?req ?s ?d] =>
        destruct (view_functions c p q t r req s d) as [[[? ?] ?]|[]] eqn:H
    end
  | ];
  cbn [fst snd].

(** X1. A GET never writes: whatever the rule, the form, the body and the
    session, the database after a GET request is the database before it. *)
Theorem get_requests_change_no_data r form json now st :
  snd (snd (handle check_password_hash float_repr float_of_str sqlite_real_text
              (mkRequest GET r form json now) st))
  = snd st.
Proof.
  destruct st as [sess db]. by_view; try reflexivity.
  cbn [req_route req_method] in *.
  destruct r; cbn [methods existsb method_eqb orb] in *; try discriminate;
    open_views Hview; cbn [req_method] in Hview; inspect_view.
Qed.

(** X2. Only a redirect or a 200 JSON answer goes with a change: when the
    response is a rendered page, a JSON error or a 404, 405 or 500, the
    session and the database are what they were. *)
Theorem state_changes_only_with_success req st :
  let answer :=
    handle check_password_hash float_repr float_of_str sqlite_real_text req st in
  (exists location, fst answer = redirect location)
  \/ (exists body, fst answer = jsonify 200 body)
  \/ snd answer = st.
Proof.
  cbv zeta. destruct st as [sess db]. by_view; auto.
  destruct (req_route req); open_views Hview; inspect_view; eauto.
Qed.

(** X3. No request creates, changes or deletes a User. *)
Theorem users_never_change req st :
  users (snd (snd (handle check_password_hash float_repr float_of_str
                     sqlite_real_text req st)))
  = users (snd st).
Proof.
  destruct st as [sess db]. by_view; auto.
  destruct (req_route req); open_views Hview; inspect_view.
Qed.

(** X4. Orders and Contacts are only ever appended.  A request leaves the
    Order table as it is, unless it is a POST to [/order], which may append
    one Order stamped with the time of the request under a key no Order has;
    likewise for Contacts and a POST to [/contact]. *)
Theorem orders_and_contacts_append_only req st :
  let db := snd st in
  let db' := snd (snd (serve req st)) in
  (orders db' = orders db
   \/ exists row,
        req_route req = order_rule /\ req_method req = POST
        /\ orders db' = orders db ++ [row]
        /\ order_id row = next_id (map order_id (orders db))
        /\ order_created_at row = req_now req)
  /\
  (contacts db' = contacts db
   \/ exists row,
        req_route req = contact_rule /\ req_method req = POST
        /\ contacts db' = contacts db ++ [row]
        /\ contact_id row = next_id (map contact_id (contacts db))
        /\ contact_created_at row = req_now req).
Proof.
  destruct st as [sess db]. cbv zeta. by_view; auto.
  destruct req as [m rt form json now]. cbn [req_route req_method req_now] in *.
  destruct rt, m; cbn [methods existsb method_eqb orb] in *; try discriminate;
    open_views Hview; cbn [req_method req_now req_json] in Hview; inspect_view;
    cbn [orders contacts]; split; auto; right; eexists; repeat split; reflexivity.
Qed.

(** X5. The Service table changes only at the hands of an admin: if a
    request changes it, the session holds a truthy [admin_logged_in] and the
    request is a POST to add, edit or delete. *)
Theorem services_change_only_for_admin req (sess : session) db :
  services (snd (snd (serve req (sess, db)))) = services db
  \/ (admin_logged_in sess = true /\ req_method req = POST
      /\ decorated (req_route req) = true).
Proof.
  by_view; auto.
  destruct req as [m rt form json now]. cbn [req_route req_method req_now] in *.
  unfold admin_logged_in.
  destruct rt, m; cbn [methods existsb method_eqb orb] in *; try discriminate;
    open_views Hview; cbn [req_method req_now req_json] in Hview; inspect_view;
    cbn [services]; auto;
    right; repeat split; auto; apply negb_false_iff; assumption.
Qed.

(** X17. A POST to [/order] whose body is not a JSON object with at least
    one key is refused without a change: a falsy body ([null], [false], [0],
    an empty string, list or object) stands for the empty object and gets
    the 400 error; a truthy body that is no object (a number, a string, a
    list, [true]) has no [get] and ends in a 500. *)
Theorem order_body_not_an_object form json now (sess : session) db :
  match json with
  | PDict (_ :: _) => True
  | _ =>
      serve (mkRequest POST order_rule form json now) (sess, db) =
      (if truthy json then abort 500
       else jsonify 400
              (PDict [("status", PStr "error");
                      ("message", PStr "Missing required information.")]),
       (sess, db))
  end.
Proof.
  unfold handle; cbn [req_method req_route methods existsb method_eqb orb fst snd
                      view_functions].
  unfold order, py_or; cbn [req_json].
  destruct json as [ |b|z|f|s|l|d]; cbn [truthy].
  - reflexivity.
  - destruct b; reflexivity.
  - destruct (negb (z =? 0)); reflexivity.
  - destruct f; reflexivity.
  - destruct (negb (String.eqb s "")); reflexivity.
  - destruct l; reflexivity.
  - destruct d; [reflexivity | exact I].
Qed.

(** X18. The application redirects to two places only, its own login route
    and its own dashboard: the [next] a client is sent away with is the path
    it asked for, and no handler ever redirects to a location taken from
    the request. *)
Theorem redirects_only_to_login_or_dashboard req st :
  match fst (serve req st) with
  | redirect location =>
      location = url_for "dashboard" []
      \/ location = url_for "login" []
      \/ location = url_for "login" [("next", path (req_route req))]
  | _ => True
  end.
Proof.
  destruct st as [sess db]. by_view; auto.
  destruct req as [m rt form json now]. cbn [req_route] in *.
  destruct rt; open_views Hview; inspect_view; cbn; auto.
Qed.

(** X12. Logout clears the flag whatever the session held: after a GET to
    [/admin/logout] the session has no truthy [admin_logged_in], the
    database is untouched, and every decorated rule answers with the
    redirect to the login route. *)
Theorem logout_always_clears form json now (sess : session) db :
  let st' := snd (serve (mkRequest GET logout_rule form json now) (sess, db)) in
  admin_logged_in (fst st') = false
  /\ snd st' = db
  /\ forall req,
       In (req_method req) (methods (req_route req)) ->
       decorated (req_route req) = true ->
       serve req st' =
         (redirect (url_for "login" [("next", path (req_route req))]), st').
Proof.
  cbv zeta. unfold handle at 1 2 3.
  cbn [req_method req_route methods existsb method_eqb orb fst snd view_functions logout].
  assert (admin_logged_in (delete "admin_logged_in" sess) = false) as Hout.
  { unfold admin_logged_in, session_get. rewrite lookup_delete_eq. reflexivity. }
  split; [exact Hout | split; [reflexivity|]].
  intros req Hm Hd. unfold handle. rewrite (method_allowed _ _ Hm). cbn [fst snd].
  destruct req as [m r form' json' now']. cbn [req_route req_method] in *.
  destruct r; try discriminate Hd; cbn [view_functions];
    rewrite guard_blocks by assumption; reflexivity.
Qed.

(** ** Adding and deleting a Service *)

Lemma next_id_bound (ids : list N) x : In x ids -> (x < next_id ids)%N.
Proof.
  unfold next_id. induction ids as [|y ids IH]; cbn [In fold_right]; [tauto|].
  intros [-> | H]; [lia | specialize (IH H); lia].
Qed.

Lemma next_id_fresh (ids : list N) : ~ In (next_id ids) ids.
Proof. intros H. apply next_id_bound in H. lia. Qed.

(** X7. A POST to [/admin/services/add] from an admin session: when name,
    description and price_display are all sent and non-empty, exactly one
    Service is appended, under a key no Service has, holding the three sent
    values and the sent image_file, or [placeholder.png] when the image_file
    is missing or empty, and the response redirects to the dashboard; when
    one of the three is missing or empty, the form is rendered again with
    [All fields are required] and nothing changes. *)
Theorem add_service_post_spec form json now (sess : session) db :
  admin_logged_in sess = true ->
  let req := mkRequest POST add_service_rule form json now in
  let row :=
    mkService (next_id (map service_id (services db)))
      (form_get req "name") (form_get req "description")
      (form_get req "price_display")
      (if present form "image_file" then form_get req "image_file"
       else PStr "placeholder.png") in
  (present form "name" && present form "description"
   && present form "price_display" = true ->
   serve req (sess, db) =
     (redirect (url_for "dashboard" []),
      (sess, with_services db (services db ++ [row])))
   /\ ~ In (service_id row) (map service_id (services db)))
  /\
  (present form "name" && present form "description"
   && present form "price_display" = false ->
   serve req (sess, db) =
     (render_template "service_form.html"
        [("error", CStr "All fields are required"); ("service", CNone)],
      (sess, db))).
Proof.
  intros Hs req row. subst row req.
  unfold handle; cbn [req_method req_route methods existsb method_eqb orb fst snd
                      view_functions].
  rewrite guard_passes by assumption.
  unfold add_service, py_all, py_or, insert_service; cbn [req_method forallb].
  rewrite !truthy_form_get, andb_true_r, andb_assoc.
  split; intros H; rewrite H; cbn [negb]; [|reflexivity].
  split; [|apply next_id_fresh].
  apply andb_true_iff in H as [H Hp]. apply andb_true_iff in H as [Hn Hd].
  rewrite !text_column_form_get by assumption. cbn [bind].
  destruct (present form "image_file") eqn:Hi.
  - rewrite text_column_form_get by assumption. reflexivity.
  - reflexivity.
Qed.

Lemma find_service_filtered sid sid' (l : list Service) :
  List.find (fun r => N.eqb (service_id r) sid')
    (List.filter (fun r => negb (N.eqb (service_id r) sid)) l)
  = if N.eqb sid' sid then None
    else List.find (fun r => N.eqb (service_id r) sid') l.
Proof.
  induction l as [|r l IH]; cbn [List.filter List.find].
  - destruct (N.eqb sid' sid); reflexivity.
  - destruct (N.eqb_spec (service_id r) sid) as [E|E]; cbn [negb List.find].
    + rewrite IH. destruct (N.eqb_spec sid' sid) as [E'|E'].
      * destruct (N.eqb_spec (service_id r) sid'); [reflexivity | congruence].
      * destruct (N.eqb_spec (service_id r) sid'); [congruence | reflexivity].
    + rewrite IH. destruct (N.eqb_spec (service_id r) sid') as [E1|E1]; [|reflexivity].
      destruct (N.eqb_spec sid' sid); [congruence | reflexivity].
Qed.

(** X8. A POST to delete an existing Service from an admin session removes
    it and nothing else: the response redirects to the dashboard; the id is
    gone, so a lookup of it, and a second delete, end in 404; every other id
    is looked up as before; Users, Orders and Contacts are untouched. *)
Theorem delete_service_removes_row sid form json now (sess : session) db s :
  admin_logged_in sess = true ->
  get_or_404 sid db = Ok s ->
  let req := mkRequest POST (delete_service_rule sid) form json now in
  let db' := remove_service db s in
  serve req (sess, db) = (redirect (url_for "dashboard" []), (sess, db'))
  /\ get_or_404 sid db' = Raise NotFound
  /\ serve req (sess, db') = (abort 404, (sess, db'))
  /\ (forall sid', sid' <> sid -> get_or_404 sid' db' = get_or_404 sid' db)
  /\ users db' = users db /\ orders db' = orders db /\ contacts db' = contacts db.
Proof.
  intros Hs Hget req db'. subst req db'.
  pose proof (get_or_404_found _ _ _ Hget) as [Hsid Hfind].
  assert (service_id s = sid) as Hid.
  { apply find_service_some in Hfind. tauto. }
  assert (forall sid', (sid' <? 2 ^ 63)%N = true ->
                       get_or_404 sid' (remove_service db s) =
                       if N.eqb sid' sid then Raise NotFound else get_or_404 sid' db)
    as Hlookup.
  { intros sid' Hsid'. unfold get_or_404, remove_service; cbn [services].
    rewrite Hsid', Hid, find_service_filtered. destruct (N.eqb sid' sid); reflexivity. }
  assert (get_or_404 sid (remove_service db s) = Raise NotFound) as Hgone.
  { rewrite Hlookup, N.eqb_refl by assumption. reflexivity. }
  repeat split.
  - unfold handle; cbn [req_method req_route methods existsb method_eqb orb fst snd
                        view_functions].
    rewrite guard_passes by assumption. unfold delete_service. rewrite Hget. reflexivity.
  - exact Hgone.
  - unfold handle; cbn [req_method req_route methods existsb method_eqb orb fst snd
                        view_functions].
    rewrite guard_passes by assumption. unfold delete_service. rewrite Hgone. reflexivity.
  - intros sid' Hne. destruct (sid' <? 2 ^ 63)%N eqn:Hsid'.
    + rewrite Hlookup by assumption. apply N.eqb_neq in Hne. rewrite Hne. reflexivity.
    + unfold get_or_404. rewrite Hsid'. reflexivity.
Qed.

Lemma filter_fresh_service (l : list Service) row :
  ~ In (service_id row) (map service_id l) ->
  List.filter (fun r => negb (N.eqb (service_id r) (service_id row))) (l ++ [row]) = l.
Proof.
  intros Hfresh. rewrite List.filter_app. cbn [List.filter].
  rewrite N.eqb_refl. cbn [negb]. rewrite app_nil_r.
  induction l as [|r l IH]; [reflexivity|].
  cbn [List.filter map In] in *.
  destruct (N.eqb_spec (service_id r) (service_id row)) as [E|E]; [tauto|].
  cbn [negb]. rewrite IH by tauto. reflexivity.
Qed.

Lemma find_service_appended (l : list Service) row :
  ~ In (service_id row) (map service_id l) ->
  List.find (fun r => N.eqb (service_id r) (service_id row)) (l ++ [row]) = Some row.
Proof.
  intros Hfresh. induction l as [|r l IH]; cbn [app List.find map In] in *.
  - rewrite N.eqb_refl. reflexivity.
  - destruct (N.eqb_spec (service_id r) (service_id row)) as [E|E]; [tauto|].
    apply IH. tauto.
Qed.

(** X9. Adding a Service and then deleting it gives the Service table back
    as it was: from an admin session, a valid POST to add followed by a POST
    to delete the key the new Service got, a key below 2^63, leaves the
    database unchanged. *)
Theorem add_then_delete_restores_services form form' json json' now now'
    (sess : session) db :
  admin_logged_in sess = true ->
  present form "name" && present form "description"
  && present form "price_display" = true ->
  (next_id (map service_id (services db)) < 2 ^ 63)%N ->
  let added := snd (serve (mkRequest POST add_service_rule form json now) (sess, db)) in
  let sid := next_id (map service_id (services db)) in
  serve (mkRequest POST (delete_service_rule sid) form' json' now') added
  = (redirect (url_for "dashboard" []), (sess, db)).
Proof.
  intros Hs Hvalid Hkey added sid. subst added sid. apply N.ltb_lt in Hkey.
  unfold handle at 2; cbn [req_method req_route methods existsb method_eqb orb fst snd
                           view_functions].
  rewrite guard_passes by assumption.
  unfold add_service, py_all, py_or, insert_service; cbn [req_method forallb].
  rewrite !truthy_form_get, andb_true_r, andb_assoc, Hvalid. cbn [negb].
  apply andb_true_iff in Hvalid as [H Hp]. apply andb_true_iff in H as [Hn Hd].
  rewrite !text_column_form_get by assumption. cbn [bind].
  assert (keep false
            (if present form "image_file"
             then form_get (mkRequest POST add_service_rule form json now) "image_file"
             else PStr "placeholder.png")
          = Ok (if present form "image_file"
                then form_get (mkRequest POST add_service_rule form json now)
                       "image_file"
                else PStr "placeholder.png")) as ->.
  { destruct (present form "image_file") eqn:Hi; [|reflexivity].
    apply text_column_form_get. assumption. }
  cbn [bind snd].
  unfold handle; cbn [req_method req_route methods existsb method_eqb orb fst snd
                      view_functions].
  rewrite guard_passes by assumption.
  unfold delete_service, get_or_404; cbn [services]. rewrite Hkey.
  rewrite (find_service_appended (services db)
             (mkService (next_id (map service_id (services db))) _ _ _ _))
    by apply next_id_fresh.
  cbn [bind]. unfold remove_service; cbn [services users orders contacts].
  rewrite (filter_fresh_service (services db)
             (mkService (next_id (map service_id (services db))) _ _ _ _))
    by apply next_id_fresh.
  destruct db; reflexivity.
Qed.

(** ** Newest first *)

Lemma insert_desc_permutation {A : Type} (key : A -> N) x (l : list A) :
  Permutation (x :: l) (insert_desc key x l).
Proof.
  induction l as [|y l IH]; cbn [insert_desc]; [reflexivity|].
  destruct (key y <=? key x)%N; [reflexivity|].
  rewrite perm_swap. apply perm_skip. exact IH.
Qed.

Lemma order_by_desc_permutation {A : Type} (key : A -> N) (l : list A) :
  Permutation l (order_by_desc key l).
Proof.
  unfold order_by_desc. induction l as [|x l IH]; cbn [fold_right]; [reflexivity|].
  rewrite <- insert_desc_permutation. apply perm_skip. exact IH.
Qed.

Lemma insert_desc_sorted {A : Type} (key : A -> N) x (l : list A) :
  StronglySorted (newest_first key) l ->
  StronglySorted (newest_first key) (insert_desc key x l).
Proof.
  induction 1 as [|y l Hsorted IH Hall]; cbn [insert_desc].
  - repeat constructor.
  - destruct (N.leb_spec (key y) (key x)) as [Hlt|Hge].
    + constructor; [constructor; assumption|].
      constructor; [unfold newest_first; lia|].
      eapply Forall_impl; [exact Hall|]. unfold newest_first. intros z Hz. cbn beta in *. lia.
    + constructor; [exact IH|].
      eapply Permutation_Forall; [apply insert_desc_permutation|].
      constructor; [unfold newest_first; lia | exact Hall].
Qed.

Lemma order_by_desc_sorted {A : Type} (key : A -> N) (l : list A) :
  StronglySorted (newest_first key) (order_by_desc key l).
Proof.
  unfold order_by_desc. induction l as [|x l IH]; cbn [fold_right]; [constructor|].
  apply insert_desc_sorted. exact IH.
Qed.

(** X10. With an admin session, a GET to the dashboard renders
    [dashboard.html] with the Services as stored and with the Orders and the
    Contacts rearranged newest first: each list holds exactly the stored
    rows, and no row comes before a row created later.  Nothing changes. *)
Theorem dashboard_lists_newest_first form json now (sess : session) db :
  admin_logged_in sess = true ->
  exists listed_orders listed_contacts,
    serve (mkRequest GET dashboard_rule form json now) (sess, db) =
      (render_template "dashboard.html"
         [("services", CServices (services db));
          ("orders", COrders listed_orders);
          ("contacts", CContacts listed_contacts)],
       (sess, db))
    /\ Permutation (orders db) listed_orders
    /\ StronglySorted (newest_first order_created_at) listed_orders
    /\ Permutation (contacts db) listed_contacts
    /\ StronglySorted (newest_first contact_created_at) listed_contacts.
Proof.
  intros Hs.
  exists (order_by_desc order_created_at (orders db)),
         (order_by_desc contact_created_at (contacts db)).
  split; [|auto using order_by_desc_permutation, order_by_desc_sorted].
  unfold handle; cbn [req_method req_route methods existsb method_eqb orb fst snd
                      view_functions].
  rewrite guard_passes by assumption. reflexivity.
Qed.

(** ** What holds in every state the application reaches *)

Lemma reachable_invariant (I : database -> Prop) :
  I empty_db ->
  (forall salt db, I db -> I (seed salt db)) ->
  (forall req st, I (snd st) -> I (snd (snd (serve req st)))) ->
  forall st, reach st -> I (snd st).
Proof.
  intros Hempty Hseed Hserve st Hreach.
  induction Hreach as [salt | req st _ IH | salt' st _ IH | st _ IH]; cbn [snd]; auto.
Qed.

Lemma NoDup_append_next (ids : list N) :
  List.NoDup ids -> List.NoDup (ids ++ [next_id ids]).
Proof.
  intros H. apply List.NoDup_app; [exact H | repeat constructor; tauto |].
  intros x Hx [<- | []]. exact (next_id_fresh ids Hx).
Qed.

Lemma service_ids_replaced (l : list Service) k s' :
  service_id s' = k ->
  map service_id (map (fun r => if N.eqb (service_id r) k then s' else r) l)
  = map service_id l.
Proof.
  intros Hid. induction l as [|r l IH]; cbn [map]; [reflexivity|].
  rewrite IH. destruct (N.eqb_spec (service_id r) k) as [E|E]; congruence.
Qed.

Lemma NoDup_service_ids_filter (p : Service -> bool) (l : list Service) :
  List.NoDup (map service_id l) -> List.NoDup (map service_id (List.filter p l)).
Proof.
  induction l as [|r l IH]; cbn [map List.filter]; [auto|].
  intros H. apply List.NoDup_cons_iff in H as [Hr H].
  destruct (p r); [|auto]. cbn [map]. constructor; [|auto].
  intros Hin. apply Hr. apply List.in_map_iff in Hin as (x & Hx & Hin).
  apply List.filter_In in Hin as [Hin _]. rewrite <- Hx. apply in_map. exact Hin.
Qed.

Lemma handle_keys_distinct req st :
  keys_distinct (snd st) -> keys_distinct (snd (snd (serve req st))).
Proof.
  destruct st as [sess db]. cbn [snd]. intros Hdb. by_view; auto.
  destruct Hdb as (Hu & Hs & Ho & Hc). unfold keys_distinct.
  destruct (req_route req); open_views Hview; inspect_view;
    cbn [users services orders contacts]; repeat split; auto;
    rewrite ?map_app; cbn [map order_id contact_id service_id];
    auto using NoDup_append_next, NoDup_service_ids_filter.
  all: rewrite service_ids_replaced by reflexivity; assumption.
Qed.

Lemma seed_data_keys_distinct salt db : keys_distinct db -> keys_distinct (seed salt db).
Proof.
  intros (Hu & Hs & Ho & Hc). unfold keys_distinct.
  pose proof (seed_data_orders_contacts salt db) as [-> ->].
  rewrite seed_data_users, seed_data_services.
  repeat split; auto.
  - destruct (users db); [repeat constructor; tauto | exact Hu].
  - destruct (services db); [|exact Hs].
    vm_compute. repeat constructor; cbn; intuition discriminate.
Qed.

(** X6. In every state the application reaches, the primary keys of each
    table are distinct: no two Users, Services, Orders or Contacts share an
    id, whatever was added, edited and deleted on the way. *)
Theorem reachable_primary_keys_distinct st : reach st -> keys_distinct (snd st).
Proof.
  apply reachable_invariant.
  - repeat split; constructor.
  - apply seed_data_keys_distinct.
  - apply handle_keys_distinct.
Qed.

Lemma form_get_nonempty req key :
  truthy (form_get req key) = true -> nonempty_str (form_get req key).
Proof.
  unfold form_get, nonempty_str. destruct (assoc key (req_form req)) as [s|]; [|discriminate].
  cbn [truthy]. intros H. exists s. split; [reflexivity|].
  apply negb_true_iff, String.eqb_neq in H. exact H.
Qed.

Lemma nonempty_str_kept nullable v u :
  nonempty_str v -> keep nullable v = Ok u -> nonempty_str u.
Proof. intros (s & -> & Hs) [= <-]. exists s. auto. Qed.

Lemma form_get_kept nullable req key u :
  truthy (form_get req key) = true ->
  keep nullable (form_get req key) = Ok u -> nonempty_str u.
Proof. intros H. apply nonempty_str_kept, form_get_nonempty, H. Qed.

Lemma py_all_three a b c :
  negb (py_all [a; b; c]) = false ->
  truthy a = true /\ truthy b = true /\ truthy c = true.
Proof.
  unfold py_all. cbn [forallb]. rewrite andb_true_r. intros H.
  apply negb_false_iff in H. apply andb_true_iff in H as [Ha H].
  apply andb_true_iff in H as [Hb Hc]. auto.
Qed.

Lemma string_of_Z_nonempty z : String.eqb (string_of_Z z) "" = false.
Proof.
  unfold string_of_Z.
  assert (exists c r, chars_of_Z z = c :: r) as (c & r & ->); [|reflexivity].
  destruct z as [|p|p]; unfold chars_of_Z.
  - exists "0"%char, []. reflexivity.
  - destruct (chars_of_N_head (Z.to_N (Z.pos p))) as (c & r & E & _). eauto.
  - eauto.
Qed.

(** What a column keeps of a truthy value is truthy: the text of a number
    is not empty. *)
Lemma text_column_truthy v u :
  truthy v = true -> keep false v = Ok u -> truthy u = true.
Proof.
  destruct v as [ |b|z|f|s|l|d]; cbn [text_column truthy]; try discriminate.
  - intros -> [= <-]. reflexivity.
  - intros _. destruct (int64 z); [|discriminate]. intros [= <-].
    cbn [truthy]. rewrite string_of_Z_nonempty. reflexivity.
  - destruct f; try discriminate; intros _ [= <-];
      destruct (sqlite_real_text _); reflexivity.
  - intros H [= <-]. exact H.
Qed.

Lemma handle_contacts_complete req st :
  contacts_complete (snd st) -> contacts_complete (snd (snd (serve req st))).
Proof.
  destruct st as [sess db]. cbn [snd]. intros Hdb. by_view; auto.
  unfold contacts_complete in *.
  destruct (req_route req); open_views Hview; inspect_view; cbn [contacts]; auto.
  apply Forall_app. split; [assumption|].
  constructor; [|constructor]. cbn [contact_name contact_email contact_message].
  match goal with H : negb (py_all _) = false |- _ => apply py_all_three in H as (? & ? & ?) end.
  repeat split; eauto using form_get_kept.
Qed.

(** X14. In every state the application reaches, every Contact has a
    non-empty name, email and message: the validation of [/contact] is the
    only way in. *)
Theorem reachable_contacts_complete st : reach st -> contacts_complete (snd st).
Proof.
  apply reachable_invariant.
  - constructor.
  - intros salt db H. unfold contacts_complete.
    rewrite (proj2 (seed_data_orders_contacts salt db)). exact H.
  - apply handle_contacts_complete.
Qed.

Lemma handle_orders_complete req st :
  orders_complete float_repr (snd st) ->
  orders_complete float_repr (snd (snd (serve req st))).
Proof.
  destruct st as [sess db]. cbn [snd]. intros Hdb. by_view; auto.
  unfold orders_complete in *.
  destruct (req_route req); open_views Hview; inspect_view; cbn [orders]; auto.
  all: apply Forall_app; split; [assumption|]; constructor; [|constructor];
    cbn [order_name order_email order_message order_items_json];
    match goal with
    | H : negb (truthy ?i) || negb (truthy ?n) || negb (truthy ?e) = false |- _ =>
        apply orb_false_iff in H as [H ?He]; apply orb_false_iff in H as [?Hi ?Hn];
        apply negb_false_iff in He, Hi, Hn
    end;
    repeat split; eauto using text_column_scalar, text_column_truthy.
Qed.

(** X15. In every state the application reaches, every Order has a truthy
    name and email that the database binds, and its items are the
    [json.dumps] of a submitted value that was not empty. *)
Theorem reachable_orders_complete st : reach st -> orders_complete float_repr (snd st).
Proof.
  apply reachable_invariant.
  - constructor.
  - intros salt db H. unfold orders_complete.
    rewrite (proj1 (seed_data_orders_contacts salt db)). exact H.
  - apply handle_orders_complete.
Qed.

Lemma image_file_or_placeholder req :
  nonempty_str (py_or (form_get req "image_file") (PStr "placeholder.png")).
Proof.
  unfold py_or. destruct (truthy (form_get req "image_file")) eqn:Ht.
  - apply form_get_nonempty. exact Ht.
  - eexists. split; [reflexivity | discriminate].
Qed.

Lemma handle_services_not_null req st :
  services_not_null (snd st) -> services_not_null (snd (snd (serve req st))).
Proof.
  destruct st as [sess db]. cbn [snd]. intros Hdb. by_view; auto.
  unfold services_not_null in *.
  destruct (req_route req); open_views Hview; inspect_view;
    cbn [fst snd services service_name service_description service_price_display
         service_image_file] in *; auto.
  - apply Forall_app. split; [assumption|]. constructor; [|constructor].
    cbn [service_name service_description service_price_display service_image_file].
    repeat split; eauto using text_column_not_null.
    eapply nonempty_str_kept; [apply image_file_or_placeholder | eassumption].
  - apply Forall_map. eapply Forall_impl; [exact Hdb|].
    intros r Hr. cbn beta. destruct (N.eqb _ _); [|exact Hr].
    cbn [service_name service_description service_price_display service_image_file].
    repeat split; eauto using text_column_not_null, form_get_kept.
  - apply Forall_map. eapply Forall_impl; [exact Hdb|].
    intros r Hr. cbn beta. destruct (N.eqb _ _); [|exact Hr].
    cbn [service_name service_description service_price_display service_image_file].
    repeat split; eauto using text_column_not_null.
    match goal with
    | H : List.find _ (services db) = Some ?a |- _ =>
        apply List.find_some in H as [Hin _];
        pose proof (proj1 (List.Forall_forall _ _) Hdb a Hin) as (_ & _ & _ & Himg)
    end.
    eapply nonempty_str_kept; eassumption.
  - apply List.Forall_forall. intros x Hx. apply List.filter_In in Hx as [Hx _].
    apply (proj1 (List.Forall_forall _ _) Hdb x Hx).
Qed.

Lemma seed_data_services_not_null salt db :
  services_not_null db -> services_not_null (seed salt db).
Proof.
  unfold services_not_null. rewrite seed_data_services.
  destruct (services db); [intros _ | auto].
  repeat constructor;
    cbn [service_name service_description service_price_display service_image_file];
    unfold is_str; eauto;
    (eexists; split; [reflexivity | discriminate]).
Qed.

(** X16. In every state the application reaches, no Service has a null
    name, description or price_display (each is a [str], possibly empty),
    and every Service has a non-empty image_file. *)
Theorem reachable_services_not_null st : reach st -> services_not_null (snd st).
Proof.
  apply reachable_invariant.
  - constructor.
  - apply seed_data_services_not_null.
  - apply handle_services_not_null.
Qed.

(** ** The session *)

Lemma login_with_seeded_credentials form json now (sess : session) db :
  (forall salt,
     check_password_hash (generate_password_hash salt DEFAULT_ADMIN_PASSWORD)
       DEFAULT_ADMIN_PASSWORD = true) ->
  reach (sess, db) ->
  assoc "username" form = Some DEFAULT_ADMIN_USERNAME ->
  assoc "password" form = Some DEFAULT_ADMIN_PASSWORD ->
  serve (mkRequest POST login_rule form json now) (sess, db) =
    (redirect (url_for "dashboard" []),
     (<["admin_logged_in" := PBool true]> sess, db)).
Proof.
  intros Hcheck Hreach Hu Hp.
  destruct (reachable_users _ Hreach) as [salt Husers]. cbn [snd] in Husers.
  unfold handle; cbn [req_method req_route methods existsb method_eqb orb fst snd
                      view_functions].
  unfold login; cbn [req_method]. rewrite Husers, filter_by_username_admin.
  unfold form_get; cbn [req_form]. rewrite Hu, Hp.
  cbn [String.eqb Ascii.eqb Bool.eqb DEFAULT_ADMIN_USERNAME].
  unfold verify_password; cbn [user_password_hash bind].
  rewrite Hcheck. reflexivity.
Qed.

(** X11. The life of an admin session, in every state the application
    reaches and for a [check_password_hash] that accepts the seeded password
    for the hash made of it: after a POST to login with the seeded
    credentials, a GET to the dashboard renders the dashboard, with the
    Services as stored and the Orders and the Contacts newest first; after
    a GET to logout, the same GET is sent back to the login route; and
    neither login nor logout touches the database. *)
Theorem login_opens_dashboard_logout_closes form json now json' now' st :
  (forall salt,
     check_password_hash (generate_password_hash salt DEFAULT_ADMIN_PASSWORD)
       DEFAULT_ADMIN_PASSWORD = true) ->
  reach st ->
  assoc "username" form = Some DEFAULT_ADMIN_USERNAME ->
  assoc "password" form = Some DEFAULT_ADMIN_PASSWORD ->
  let visit := mkRequest GET dashboard_rule [] json' now' in
  let logged_in := snd (serve (mkRequest POST login_rule form json now) st) in
  let logged_out := snd (serve (mkRequest GET logout_rule [] json' now') logged_in) in
  (exists listed_orders listed_contacts,
     serve visit logged_in =
       (render_template "dashboard.html"
          [("services", CServices (services (snd st)));
           ("orders", COrders listed_orders);
           ("contacts", CContacts listed_contacts)],
        logged_in)
     /\ Permutation (orders (snd st)) listed_orders
     /\ StronglySorted (newest_first order_created_at) listed_orders
     /\ Permutation (contacts (snd st)) listed_contacts
     /\ StronglySorted (newest_first contact_created_at) listed_contacts)
  /\ serve visit logged_out =
       (redirect (url_for "login" [("next", "/admin/dashboard")]), logged_out)
  /\ snd logged_in = snd st
  /\ snd logged_out = snd st.
Proof.
  intros Hcheck Hreach Hu Hp visit logged_in logged_out.
  subst visit logged_out logged_in. destruct st as [sess db].
  rewrite (login_with_seeded_credentials form json now sess db Hcheck Hreach Hu Hp).
  cbn [snd].
  assert (admin_logged_in (<["admin_logged_in" := PBool true]> sess) = true) as Hin.
  { unfold admin_logged_in, session_get. rewrite lookup_insert_eq. reflexivity. }
  assert (admin_logged_in
            (delete "admin_logged_in" (<["admin_logged_in" := PBool true]> sess)) = false)
    as Hout.
  { unfold admin_logged_in, session_get. rewrite lookup_delete_eq. reflexivity. }
  split; [|split; [|split]]; try reflexivity.
  - exists (order_by_desc order_created_at (orders db)),
           (order_by_desc contact_created_at (contacts db)).
    split; [|auto using order_by_desc_permutation, order_by_desc_sorted].
    unfold handle;
      cbn [req_method req_route methods existsb method_eqb orb fst snd view_functions].
    rewrite guard_passes by exact Hin. reflexivity.
  - unfold handle;
      cbn [req_method req_route methods existsb method_eqb orb fst snd view_functions
           logout].
    rewrite guard_blocks by exact Hout. reflexivity.
Qed.

(** X13. Nothing but an accepted login makes a session an admin session.
    In every state the application reaches: if the session has no truthy
    [admin_logged_in] before a request and has one after it, the request is
    a POST to [/admin/login] that names the seeded admin and sends a
    password that [check_password_hash] accepts for the admin's stored
    hash. *)
Theorem admin_flag_only_by_accepted_login req st :
  reach st ->
  admin_logged_in (fst st) = false ->
  admin_logged_in (fst (snd (serve req st))) = true ->
  req_method req = POST
  /\ req_route req = login_rule
  /\ assoc "username" (req_form req) = Some DEFAULT_ADMIN_USERNAME
  /\ exists p pwhash,
       assoc "password" (req_form req) = Some p
       /\ users (snd st) = [mkUser 1 DEFAULT_ADMIN_USERNAME pwhash]
       /\ check_password_hash pwhash p = true.
Proof.
  intros Hreach Hbefore Hafter.
  destruct (reachable_users _ Hreach) as [salt Husers].
  destruct st as [sess db]. cbn [fst snd] in *. revert Hafter.
  by_view; try congruence.
  destruct req as [m rt form json now]. cbn [req_route req_method req_form] in *.
  assert (admin_logged_in (delete "admin_logged_in" sess) = false) as Hout.
  { unfold admin_logged_in, session_get. rewrite lookup_delete_eq. reflexivity. }
  destruct rt, m; cbn [methods existsb method_eqb orb] in *; try discriminate;
    try (open_views Hview; cbn [req_method] in Hview; inspect_view; congruence).
  open_views Hview. cbn [req_method] in Hview.
  rewrite Husers, filter_by_username_admin in Hview.
  unfold form_get in Hview. cbn [req_form] in Hview.
  intros Hafter.
  destruct (assoc "username" form) as [u|];
    [|cbn [bind] in Hview; simplify_eq; congruence].
  destruct (String.eqb_spec DEFAULT_ADMIN_USERNAME u) as [Eu|Eu];
    [|cbn [bind] in Hview; simplify_eq; congruence].
  unfold verify_password in Hview. cbn [user_password_hash] in Hview.
  destruct (assoc "password" form) as [p|]; [|discriminate Hview].
  cbn [bind] in Hview.
  destruct (check_password_hash _ p) eqn:Hp; [|simplify_eq; congruence].
  rewrite <- Eu. repeat split. eauto.
Qed.

(** X19. The public rules do not look at the session: for a rule that is
    neither decorated nor login nor logout, the response and the database
    are the same from any session as from none, and the session is handed
    back as it came. *)
Theorem public_routes_ignore_session req (sess : session) db :
  decorated (req_route req) = false ->
  req_route req <> login_rule ->
  req_route req <> logout_rule ->
  serve req (sess, db) =
    (fst (serve req (∅, db)), (sess, snd (snd (serve req (∅, db))))).
Proof.
  intros Hd Hlogin Hlogout. unfold handle. cbn [fst snd].
  destruct (existsb _ _); [|reflexivity].
  destruct req as [m rt form json now]. cbn [req_route] in *.
  destruct rt; try discriminate Hd; try congruence; cbn [view_functions];
    unfold index, services_page, about_page, blog_page, checkout_page,
      privacy_policy, terms_and_conditions, static_page, contact_page, order;
    cbn [req_method req_json req_now]; try reflexivity.
  - destruct m; [reflexivity|].
    destruct (negb _); [reflexivity|].
    destruct (insert_contact _ _ _ _ _) as [db'|[]]; reflexivity.
  - destruct (py_get _ "items" _) as [items|[]]; try reflexivity.
    destruct (py_get _ "total" _) as [total|[]]; try reflexivity.
    destruct (py_get _ "name" _) as [name|[]]; try reflexivity.
    destruct (py_get _ "email" _) as [email|[]]; try reflexivity.
    destruct (py_get _ "message" _) as [message|[]]; try reflexivity.
    cbn [bind]. destruct (negb _ || negb _ || negb _); [reflexivity|].
    destruct (py_float _ _) as [t|[]]; try reflexivity.
    cbn [bind]. destruct (insert_order _ _ _ _ _ _ _) as [db'|[]]; reflexivity.
Qed.

(** ** Restarts *)

(** X20. In every state the application reaches there is exactly one User,
    the admin that the first start seeded under the default username: no
    route and no restart adds, renames or removes a User. *)
Theorem only_user_is_seeded_admin st :
  reach st ->
  exists pwhash, users (snd st) = [mkUser 1 DEFAULT_ADMIN_USERNAME pwhash].
Proof.
  intros H. destruct (reachable_users st H) as [salt Hu]. eauto.
Qed.


(** ** Sending an edit twice *)

Lemma replace_service_twice (l : list Service) k s' :
  service_id s' = k ->
  map (fun r => if N.eqb (service_id r) k then s' else r)
      (map (fun r => if N.eqb (service_id r) k then s' else r) l)
  = map (fun r => if N.eqb (service_id r) k then s' else r) l.
Proof.
  intros Hid. rewrite map_map. apply map_ext. intros r.
  destruct (N.eqb_spec (service_id r) k) as [E|E].
  - rewrite Hid, N.eqb_refl. reflexivity.
  - destruct (N.eqb_spec (service_id r) k); [contradiction | reflexivity].
Qed.

(** X22. Sending the same edit a second time changes nothing more: for
    every session, database and form, the database after two equal POSTs to
    [/admin/services/edit/{id}] is the database after the first, whether the
    first was blocked, not found, refused or stored. *)
Theorem edit_service_twice sid form json now json' now' st :
  let app := handle check_password_hash float_repr float_of_str sqlite_real_text in
  let once := snd (app (mkRequest POST (edit_service_rule sid) form json now) st) in
  snd (app (mkRequest POST (edit_service_rule sid) form json' now') once) = once.
Proof.
  cbv zeta.
  (* the edit reads the form only: the second request is the first *)
  assert (forall st0,
            serve (mkRequest POST (edit_service_rule sid) form json' now') st0
            = serve (mkRequest POST (edit_service_rule sid) form json now) st0) as ->
    by reflexivity.
  set (req := mkRequest POST (edit_service_rule sid) form json now).
  destruct st as [sess db].
  (* either the first request changed nothing, or it stored the edited row *)
  assert (snd (serve req (sess, db)) = (sess, db)
          \/ exists s name description price image,
               admin_logged_in sess = true
               /\ get_or_404 sid db = Ok s
               /\ keep false (form_get req "name") = Ok name
               /\ keep false (form_get req "description") = Ok description
               /\ keep false (form_get req "price_display") = Ok price
               /\ keep false (if truthy (form_get req "image_file")
                              then form_get req "image_file"
                              else service_image_file s) = Ok image
               /\ snd (serve req (sess, db)) =
                  (sess,
                   with_services db
                     (map (fun r => if N.eqb (service_id r) (service_id s)
                                    then mkService (service_id s) name description
                                           price image
                                    else r)
                          (services db)))) as [Hsame | Hstored].
  { unfold handle.
    cbn [req req_method req_route methods existsb method_eqb orb fst snd view_functions].
    destruct (admin_logged_in sess) eqn:Hs;
      [rewrite guard_passes by assumption | rewrite guard_blocks by assumption; auto].
    unfold edit_service. destruct (get_or_404 sid db) as [s|[]] eqn:Hget; cbn [bind]; auto.
    cbn [req_method]. unfold update_service.
    cbn [service_name service_description service_price_display service_image_file
         service_id].
    destruct (keep false (form_get _ "name")) as [name|[]] eqn:Hn; cbn [bind]; auto.
    destruct (keep false (form_get _ "description")) as [description|[]] eqn:Hd;
      cbn [bind]; auto.
    destruct (keep false (form_get _ "price_display")) as [price|[]] eqn:Hp;
      cbn [bind]; auto.
    destruct (keep false (if truthy _ then _ else _)) as [image|[]] eqn:Hi;
      cbn [bind snd]; auto.
    right. exists s, name, description, price, image. auto 10. }
  - rewrite Hsame. exact Hsame.
  - destruct Hstored as (s & name & description & price & image
                         & Hs & Hget & Hn & Hd & Hp & Hi & Honce).
    rewrite Honce.
    set (s' := mkService (service_id s) name description price image) in *.
    pose proof (get_or_404_found _ _ _ Hget) as [Hsid Hfind].
    assert (get_or_404 sid
              (with_services db
                 (map (fun r => if N.eqb (service_id r) (service_id s) then s' else r)
                      (services db))) = Ok s') as Hget'.
    { unfold get_or_404. rewrite Hsid. unfold with_services; cbn [services].
      change (service_id s) with (service_id s').
      rewrite (find_service_replaced sid (services db) s s' Hfind); reflexivity. }
    unfold handle.
    cbn [req req_method req_route methods existsb method_eqb orb fst snd view_functions].
    rewrite guard_passes by assumption. unfold edit_service. rewrite Hget'.
    cbn [bind req_method]. unfold update_service.
    cbn [service_name service_description service_price_display service_image_file
         service_id s'].
    fold req. rewrite Hn, Hd, Hp. cbn [bind].
    assert (keep false (if truthy (form_get req "image_file")
                        then form_get req "image_file" else image) = Ok image) as ->.
    { destruct (truthy (form_get req "image_file")); [exact Hi|].
      eapply text_column_again. exact Hi. }
    cbn [bind snd]. unfold with_services; cbn [users services orders contacts].
    fold s'.
    rewrite (replace_service_twice (services db) (service_id s) s' eq_refl).
    reflexivity.
Qed.

End Properties.

(** * Closed examples *)

Lemma plain_check_seeded salt :
  plain_check (plain_generate salt DEFAULT_ADMIN_PASSWORD) DEFAULT_ADMIN_PASSWORD = true.
Proof. reflexivity. Qed.

Lemma anonymous_reachable :
  reachable plain_generate plain_check small_repr small_float small_real_text anonymous.
Proof. apply reachable_start. Qed.

Lemma administrator_reachable :
  reachable plain_generate plain_check small_repr small_float small_real_text
    administrator.
Proof.
  change administrator with
    (snd (example_handle
            (mkRequest POST login_rule [("username", "admin"); ("password", "admin123")]
               PNone 0)
            anonymous)).
  apply reachable_handle, anonymous_reachable.
Qed.

(** [json.dumps] writes a character beyond ASCII as one escape, and one
    beyond the basic plane as a surrogate pair. *)
Lemma json_dumps_escapes :
  json_dumps small_repr (PList [PStr "high‑quality"; PStr "é"; PStr "😀"])
  = string_of_list_ascii
      ("["%char :: dquote :: chars "high\u2011quality"
       ++ dquote :: chars ", " ++ dquote :: chars "\u00e9"
       ++ dquote :: chars ", " ++ dquote :: chars "\ud83d\ude00"
       ++ [dquote; "]"%char]).
Proof. reflexivity. Qed.

(** ** Contact *)

Lemma contact_post_creates_or_rejects_witness :
  fst (example_handle
         (mkRequest POST contact_rule
            [("name", "Ada"); ("email", "ada@example.org"); ("message", "Hello")]
            PNone 5)
         anonymous)
  = jsonify 200 (PDict [("status", PStr "success")])
  /\
  example_handle
    (mkRequest POST contact_rule [("name", "Ada"); ("email", "")] PNone 5)
    anonymous
  = (jsonify 400
       (PDict [("status", PStr "error");
               ("message", PStr "All fields are required.")]),
     anonymous).
Proof.
  split.
  - unfold example_handle, anonymous.
    rewrite (proj1 (contact_post_creates_or_rejects plain_check small_repr small_float
               small_real_text
               [("name", "Ada"); ("email", "ada@example.org"); ("message", "Hello")]
               PNone 5 ∅ example_db)); reflexivity.
  - apply (proj2 (contact_post_creates_or_rejects plain_check small_repr small_float
               small_real_text
               [("name", "Ada"); ("email", "")] PNone 5 ∅ example_db)).
    reflexivity.
Defined.

(** ** The guard *)

Lemma admin_rules_redirect_to_login_witness :
  example_handle (mkRequest POST (delete_service_rule 3) [] PNone 0) anonymous
  = (redirect (url_for "login" [("next", "/admin/services/delete/3")]), anonymous)
  /\
  example_handle (mkRequest GET logout_rule [] PNone 0) anonymous
  = (redirect (url_for "login" []), anonymous).
Proof.
  split.
  - exact (admin_rules_redirect_to_login plain_generate plain_check small_repr
             small_float small_real_text
             (mkRequest POST (delete_service_rule 3) [] PNone 0) anonymous
             anonymous_reachable eq_refl eq_refl (or_introl eq_refl)).
  - exact (admin_rules_redirect_to_login plain_generate plain_check small_repr
             small_float small_real_text
             (mkRequest GET logout_rule [] PNone 0) anonymous
             anonymous_reachable eq_refl eq_refl (or_introl eq_refl)).
Defined.

(** ** Login *)

(** C5 fails for a POST that names the admin and has no password field:
    the answer is 500, while the same POST under an unknown username gets
    the page with [Invalid credentials]. *)
Lemma login_without_password_is_refused_differently :
  let failed := render_template "login.html" [("error", CStr "Invalid credentials")] in
  example_handle (mkRequest POST login_rule [("username", "admin")] PNone 0) anonymous
  = (abort 500, anonymous)
  /\
  example_handle (mkRequest POST login_rule [("username", "root")] PNone 0) anonymous
  = (failed, anonymous)
  /\ abort 500 <> failed.
Proof. cbv zeta. repeat split. discriminate. Qed.

Lemma login_post_spec_witness :
  example_handle
    (mkRequest POST login_rule [("username", "admin"); ("password", "admin123")] PNone 0)
    anonymous
  = (redirect (url_for "dashboard" []), administrator)
  /\
  example_handle
    (mkRequest POST login_rule [("username", "admin"); ("password", "admin")] PNone 0)
    anonymous
  = (render_template "login.html" [("error", CStr "Invalid credentials")], anonymous)
  /\
  example_handle
    (mkRequest POST login_rule [("username", "root"); ("password", "admin123")] PNone 0)
    anonymous
  = (render_template "login.html" [("error", CStr "Invalid credentials")], anonymous)
  /\
  example_handle (mkRequest POST login_rule [("username", "admin")] PNone 0) anonymous
  = (abort 500, anonymous).
Proof.
  split; [|split; [|split]].
  - destruct (login_post_spec plain_generate plain_check small_repr small_float
                small_real_text
                [("username", "admin"); ("password", "admin123")] PNone 0 anonymous
                plain_check_seeded anonymous_reachable) as (pwhash & _ & H & _).
    exact (proj1 (H eq_refl eq_refl)).
  - destruct (login_post_spec plain_generate plain_check small_repr small_float
                small_real_text
                [("username", "admin"); ("password", "admin")] PNone 0 anonymous
                plain_check_seeded anonymous_reachable) as (pwhash & Hu & _ & H & _).
    injection Hu as <-.
    exact (H "admin" eq_refl eq_refl).
  - destruct (login_post_spec plain_generate plain_check small_repr small_float
                small_real_text
                [("username", "root"); ("password", "admin123")] PNone 0 anonymous
                plain_check_seeded anonymous_reachable) as (pwhash & _ & _ & _ & H & _).
    apply H. discriminate.
  - destruct (login_post_spec plain_generate plain_check small_repr small_float
                small_real_text
                [("username", "admin")] PNone 0 anonymous
                plain_check_seeded anonymous_reachable) as (pwhash & _ & _ & _ & _ & H).
    exact (H eq_refl eq_refl).
Defined.

(** ** Services *)

(** C9 fails for an id of 2^63: no Service has it, and the answer to a
    delete and to an edit is 500, not 404. *)
Lemma huge_service_id_is_not_404 :
  let sid := (2 ^ 63)%N in
  admin_logged_in (fst administrator) = true
  /\ List.find (fun r => N.eqb (service_id r) sid) (services (snd administrator)) = None
  /\ example_handle (mkRequest POST (delete_service_rule sid) [] PNone 0) administrator
     = (abort 500, administrator)
  /\ example_handle (mkRequest GET (edit_service_rule sid) [] PNone 0) administrator
     = (abort 500, administrator)
  /\ example_handle (mkRequest POST (edit_service_rule sid) [] PNone 0) administrator
     = (abort 500, administrator)
  /\ abort 500 <> abort 404.
Proof. cbv zeta. repeat split. discriminate. Qed.

Lemma missing_service_is_not_found_witness :
  example_handle (mkRequest POST (delete_service_rule 8) [] PNone 0) administrator
  = (abort 404, administrator)
  /\
  example_handle (mkRequest GET (edit_service_rule 8) [] PNone 0) administrator
  = (abort 404, administrator).
Proof.
  apply (missing_service_is_not_found plain_check small_repr small_float small_real_text
           8 GET [] PNone 0 admin_session example_db).
  - reflexivity.
  - reflexivity.
  - intros s Hs. vm_compute in Hs.
    repeat (destruct Hs as [<- | Hs]; [discriminate|]). destruct Hs.
Defined.

(** C6 fails when the form omits the name: the sent image_file is not
    stored, and nothing else is; the response is 500. *)
Lemma edit_without_name_changes_nothing :
  let req :=
    mkRequest POST (edit_service_rule 1) [("image_file", "new.png")] PNone 0 in
  admin_logged_in (fst administrator) = true
  /\ get_or_404 1 (snd administrator)
     = Ok (mkService 1 (PStr "Market Research")
             (PStr "Gain deep insights into your market and customers to make informed decisions.")
             (PStr "Starting from $2,999") (PStr "market_research.png"))
  /\ example_handle req administrator = (abort 500, administrator)
  /\ option_map service_image_file
       (List.find (fun r => N.eqb (service_id r) 1)
          (services (snd (snd (example_handle req administrator)))))
     <> Some (PStr "new.png").
Proof. cbv zeta. repeat split. vm_compute. discriminate. Qed.

Lemma edit_service_image_file_witness :
  let kept :=
    mkService 1 (PStr "Research") (PStr "Insights") (PStr "$3,000")
      (PStr "market_research.png") in
  let replaced :=
    mkService 1 (PStr "Research") (PStr "Insights") (PStr "$3,000") (PStr "new.png") in
  let form :=
    [("name", "Research"); ("description", "Insights"); ("price_display", "$3,000")] in
  get_or_404 1
    (snd (snd (example_handle
                 (mkRequest POST (edit_service_rule 1) (("image_file", "") :: form) PNone 0)
                 administrator)))
  = Ok kept
  /\
  get_or_404 1
    (snd (snd (example_handle
                 (mkRequest POST (edit_service_rule 1) (("image_file", "new.png") :: form)
                    PNone 0)
                 administrator)))
  = Ok replaced.
Proof.
  cbv zeta. split.
  - destruct (edit_service_image_file plain_generate plain_check small_repr small_float
                small_real_text 1
                [("image_file", ""); ("name", "Research"); ("description", "Insights");
                 ("price_display", "$3,000")] PNone 0 admin_session example_db
                _ administrator_reachable eq_refl eq_refl eq_refl eq_refl eq_refl)
      as (Hserve & Hget & _).
    unfold example_handle, administrator. rewrite Hserve. exact Hget.
  - destruct (edit_service_image_file plain_generate plain_check small_repr small_float
                small_real_text 1
                [("image_file", "new.png"); ("name", "Research");
                 ("description", "Insights"); ("price_display", "$3,000")] PNone 0
                admin_session example_db
                _ administrator_reachable eq_refl eq_refl eq_refl eq_refl eq_refl)
      as (Hserve & Hget & _).
    unfold example_handle, administrator. rewrite Hserve. exact Hget.
Defined.

(** C7 fails in the code.  From an admin session, a POST to edit Service 1
    with empty name, description and price_display is committed: the row is
    stored with the three fields empty, and the response redirects to the
    dashboard.  The same form sent to add is rejected with
    [All fields are required]. *)
Theorem edit_service_stores_empty_fields :
  let form := [("name", ""); ("description", ""); ("price_display", "")] in
  let edited :=
    example_handle (mkRequest POST (edit_service_rule 1) form PNone 0) administrator in
  let added :=
    example_handle (mkRequest POST add_service_rule form PNone 0) administrator in
  fst edited = redirect (url_for "dashboard" [])
  /\ get_or_404 1 (snd (snd edited))
     = Ok (mkService 1 (PStr "") (PStr "") (PStr "") (PStr "market_research.png"))
  /\ added
     = (render_template "service_form.html"
          [("error", CStr "All fields are required"); ("service", CNone)],
        administrator).
Proof. cbv zeta. repeat split. Qed.

(** ** Orders *)



(** C8 fails for a negative total: the Order is created and its stored
    total is below zero. *)
Lemma order_with_negative_total_is_stored :
  let res :=
    example_handle (mkRequest POST order_rule [] (example_order (PInt (-5))) 9) anonymous in
  fst res = jsonify 200 (PDict [("status", PStr "success")])
  /\ map order_total (orders (snd (snd res))) = [S754_finite true 5629499534213120 (-50)]
  /\ SFltb (S754_finite true 5629499534213120 (-50)) (S754_zero false) = true
  /\ SFleb (S754_zero false) (S754_finite true 5629499534213120 (-50)) = false.
Proof. cbv zeta. repeat split. Qed.

Lemma order_total_is_float_of_total_witness :
  let res :=
    example_handle (mkRequest POST order_rule [] (example_order (PInt 40)) 9) anonymous in
  exists row,
    orders (snd (snd res)) = orders example_db ++ [row]
    /\ SFleb (S754_zero false) (order_total row) = true.
Proof.
  cbv zeta.
  destruct (order_total_is_float_of_total plain_check small_repr small_float
              small_real_text []
              (example_order (PInt 40)) 9 ∅ example_db)
    as (d & t & row & Hd & Hrow & _ & _ & _ & Hnonneg & _).
  - vm_compute. discriminate.
  - exists row. split; [exact Hrow|].
    injection Hd as <-. apply (Hnonneg 40); [reflexivity | lia].
Defined.



(** ** Closed examples of the further properties *)

Lemma busy_reachable :
  reachable plain_generate plain_check small_repr small_float small_real_text busy.
Proof. unfold busy, example_handle. repeat apply reachable_handle. apply anonymous_reachable. Qed.

Lemma reachable_primary_keys_distinct_witness : keys_distinct (snd busy).
Proof.
  exact (reachable_primary_keys_distinct plain_generate plain_check small_repr small_float
           small_real_text busy busy_reachable).
Defined.

Lemma add_service_post_spec_witness :
  example_handle (mkRequest POST add_service_rule example_service_form PNone 0) administrator
  = (redirect (url_for "dashboard" []),
     (admin_session,
      with_services example_db
        (services example_db ++
         [mkService 8 (PStr "Audit") (PStr "A review of your books.") (PStr "$500")
            (PStr "placeholder.png")])))
  /\
  example_handle (mkRequest POST add_service_rule [("name", "Audit")] PNone 0) administrator
  = (render_template "service_form.html"
       [("error", CStr "All fields are required"); ("service", CNone)],
     administrator).
Proof.
  split.
  - exact (proj1 (proj1 (add_service_post_spec plain_check small_repr small_float
                           small_real_text
                           example_service_form PNone 0 admin_session example_db eq_refl)
                    eq_refl)).
  - exact (proj2 (add_service_post_spec plain_check small_repr small_float
                    small_real_text
                    [("name", "Audit")] PNone 0 admin_session example_db eq_refl)
             eq_refl).
Defined.

Lemma delete_service_removes_row_witness :
  let req := mkRequest POST (delete_service_rule 3) [] PNone 0 in
  map service_id (services (snd (snd (example_handle req administrator))))
  = [1; 2; 4; 5; 6; 7]%N
  /\ example_handle req (snd (example_handle req administrator))
     = (abort 404, snd (example_handle req administrator)).
Proof.
  cbv zeta.
  destruct (delete_service_removes_row plain_check small_repr small_float
              small_real_text 3 [] PNone 0
              admin_session example_db _ eq_refl eq_refl)
    as (Hserve & _ & Hagain & _).
  unfold example_handle, administrator. rewrite Hserve. cbn [snd].
  split; [reflexivity | exact Hagain].
Defined.

Lemma add_then_delete_restores_services_witness :
  example_handle (mkRequest POST (delete_service_rule 8) [] PNone 1)
    (snd (example_handle
            (mkRequest POST add_service_rule example_service_form PNone 0) administrator))
  = (redirect (url_for "dashboard" []), administrator).
Proof.
  exact (add_then_delete_restores_services plain_check small_repr small_float
           small_real_text
           example_service_form [] PNone PNone 0 1 admin_session example_db
           eq_refl eq_refl eq_refl).
Defined.

Lemma dashboard_lists_newest_first_witness :
  exists listed_orders listed_contacts,
    example_handle (mkRequest GET dashboard_rule [] PNone 12) (fst busy, snd busy)
    = (render_template "dashboard.html"
         [("services", CServices (services (snd busy)));
          ("orders", COrders listed_orders);
          ("contacts", CContacts listed_contacts)],
       (fst busy, snd busy))
    /\ Permutation (orders (snd busy)) listed_orders
    /\ StronglySorted (newest_first order_created_at) listed_orders
    /\ Permutation (contacts (snd busy)) listed_contacts
    /\ StronglySorted (newest_first contact_created_at) listed_contacts.
Proof.
  exact (dashboard_lists_newest_first plain_check small_repr small_float small_real_text
           [] PNone 12 (fst busy) (snd busy) eq_refl).
Defined.

Lemma login_opens_dashboard_logout_closes_witness :
  let visit := mkRequest GET dashboard_rule [] PNone 2 in
  let logged_in := snd (example_handle example_login anonymous) in
  let logged_out := snd (example_handle (mkRequest GET logout_rule [] PNone 2) logged_in) in
  (exists listed_orders listed_contacts,
     example_handle visit logged_in
     = (render_template "dashboard.html"
          [("services", CServices (services example_db));
           ("orders", COrders listed_orders); ("contacts", CContacts listed_contacts)],
        logged_in)
     /\ Permutation [] listed_orders /\ Permutation [] listed_contacts)
  /\ example_handle visit logged_out
     = (redirect (url_for "login" [("next", "/admin/dashboard")]), anonymous).
Proof.
  cbv zeta.
  destruct (login_opens_dashboard_logout_closes plain_generate plain_check small_repr
              small_float small_real_text
              [("username", "admin"); ("password", "admin123")]
              PNone 0 PNone 2 anonymous plain_check_seeded anonymous_reachable
              eq_refl eq_refl)
    as ((listed_orders & listed_contacts & Hin & Ho & _ & Hc & _) & Hout & _).
  split.
  - exists listed_orders, listed_contacts. split; [exact Hin | split; [exact Ho | exact Hc]].
  - exact Hout.
Defined.

Lemma admin_flag_only_by_accepted_login_witness :
  req_method example_login = POST
  /\ req_route example_login = login_rule
  /\ assoc "username" (req_form example_login) = Some DEFAULT_ADMIN_USERNAME
  /\ exists p pwhash,
       assoc "password" (req_form example_login) = Some p
       /\ users (snd anonymous) = [mkUser 1 DEFAULT_ADMIN_USERNAME pwhash]
       /\ plain_check pwhash p = true.
Proof.
  exact (admin_flag_only_by_accepted_login plain_generate plain_check small_repr
           small_float small_real_text
           example_login anonymous anonymous_reachable eq_refl eq_refl).
Defined.

Lemma reachable_contacts_complete_witness : contacts_complete (snd busy).
Proof.
  exact (reachable_contacts_complete plain_generate plain_check small_repr small_float
           small_real_text busy busy_reachable).
Defined.

Lemma reachable_orders_complete_witness : orders_complete small_repr (snd busy).
Proof.
  exact (reachable_orders_complete plain_generate plain_check small_repr small_float
           small_real_text busy busy_reachable).
Defined.

Lemma reachable_services_not_null_witness : services_not_null (snd busy).
Proof.
  exact (reachable_services_not_null plain_generate plain_check small_repr small_float
           small_real_text busy busy_reachable).
Defined.

Lemma public_routes_ignore_session_witness :
  example_handle example_contact administrator
  = (fst (example_handle example_contact anonymous),
     (admin_session, snd (snd (example_handle example_contact anonymous)))).
Proof.
  apply (public_routes_ignore_session plain_check small_repr small_float small_real_text
           example_contact admin_session example_db);
    [reflexivity | discriminate | discriminate].
Defined.

Lemma only_user_is_seeded_admin_witness :
  exists pwhash, users (snd busy) = [mkUser 1 DEFAULT_ADMIN_USERNAME pwhash].
Proof.
  exact (only_user_is_seeded_admin plain_generate plain_check small_repr small_float
           small_real_text busy busy_reachable).
Defined.

